(** * Candlestick analyzer: scoring engine and history aggregator

    Shallow embedding of [src/analysis/scoring.py] and
    [src/analysis/patterns.py].  Python integers are [Z]; Python floats are
    IEEE binary64 numbers, modelled with the executable specification
    [spec_float] of Corelib ([prec = 53], [emax = 1024]); exceptions are the
    [Err] branch of a small result monad. *)

From Stdlib Require Import ZArith List String Ascii Bool QArith Qround Lia Sorted.
From Corelib Require Import SpecFloat.
Import ListNotations.
Open Scope Z_scope.
Open Scope string_scope.

(** ** Python runtime fragment *)

(** The exception classes the modelled code can raise. *)
Inductive exc :=
  | ValueError
  | TypeError
  | OverflowError
  | AttributeError
  | IndexError.

Inductive result (A : Type) : Type :=
  | Ok (a : A)
  | Err (e : exc).
Arguments Ok {A} a.
Arguments Err {A} e.

Definition bind {A B : Type} (m : result A) (k : A -> result B) : result B :=
  match m with
  | Ok a => k a
  | Err e => Err e
  end.

Notation "x <- m ;; k" := (bind m (fun x => k))
  (at level 61, m at next level, right associativity).

Definition is_ok {A : Type} (r : result A) : bool :=
  match r with Ok _ => true | Err _ => false end.

(** Python dicts are association lists in insertion order; keys are unique
    because [dict_set] overwrites in place. *)
Fixpoint dict_get {A : Type} (d : list (string * A)) (k : string) : option A :=
  match d with
  | [] => None
  | (k', v) :: d' => if String.eqb k k' then Some v else dict_get d' k
  end.

Fixpoint dict_set {A : Type} (d : list (string * A)) (k : string) (v : A)
  : list (string * A) :=
  match d with
  | [] => [(k, v)]
  | (k', v') :: d' =>
      if String.eqb k k' then (k', v) :: d' else (k', v') :: dict_set d' k v
  end.

(** ** Binary64 floats *)

Definition float := spec_float.
Definition prec : Z := 53.
Definition emax : Z := 1024.

Definition fadd : float -> float -> float := SFadd prec emax.
Definition fmul : float -> float -> float := SFmul prec emax.
Definition fdiv : float -> float -> float := SFdiv prec emax.

(** [0.0] *)
Definition fzero : float := S754_zero false.

(** [float(n)] for a Python int [n]: correctly rounded to nearest-even;
    CPython raises [OverflowError] ("int too large to convert to float")
    when the rounded value is not finite.  This conversion is what
    [int * float] and [int / float] perform on their int operand. *)
Definition float_of_int (n : Z) : result float :=
  match binary_normalize prec emax n 0 false with
  | S754_infinity _ => Err OverflowError
  | f => Ok f
  end.

(** The literal [100.0]. *)
Definition f100 : float := binary_normalize prec emax 100 0 false.

(** The literal [1.0]. *)
Definition fone : float := binary_normalize prec emax 1 0 false.

(** [a / b] for two Python ints ([int.__truediv__]): the exact quotient
    correctly rounded; [OverflowError] when it is too large for a float. *)
Definition int_truediv (a : Z) (b : positive) : result float :=
  match a with
  | Z0 => Ok fzero
  | Zpos p | Zneg p =>
      let s := Z.ltb a 0 in
      let '(m, e, l) := SFdiv_core_binary prec emax (Zpos p) 0 (Zpos b) 0 in
      match binary_round_aux prec emax s m e l with
      | S754_infinity _ => Err OverflowError
      | f => Ok f
      end
  end.

(** [m / 2^k] rounded to the nearest integer, ties to even ([m >= 0],
    [k > 0]); the tie test compares the remainder with half the divisor,
    as CPython's [round] does after rounding half away from zero. *)
Definition round_half_even_shift (m k : Z) : Z :=
  let d := 2 ^ k in
  let q := m / d in
  let r := m mod d in
  match Z.compare (2 * r) d with
  | Lt => q
  | Gt => q + 1
  | Eq => if Z.even q then q else q + 1
  end.

(** [round(x)] for a Python float [x] (no [ndigits]): an int, rounded half
    to even on the exact binary value; [OverflowError] on an infinity,
    [ValueError] on a NaN. *)
Definition py_round (x : float) : result Z :=
  match x with
  | S754_zero _ => Ok 0
  | S754_infinity _ => Err OverflowError
  | S754_nan => Err ValueError
  | S754_finite s m e =>
      let n := if Z.leb 0 e then Zpos m * 2 ^ e
               else round_half_even_shift (Zpos m) (- e) in
      Ok (if s then - n else n)
  end.

(** [round(x, 2)] for a Python float [x]: zeros, infinities and NaN are
    returned unchanged; otherwise the exact value is rounded half to even
    at two decimals (CPython's correctly rounded [dtoa], mode 3) and the
    decimal [k/100] is read back as the nearest float ([strtod]), keeping
    the sign of [x]. *)
Definition py_round2 (x : float) : float :=
  match x with
  | S754_finite s m e =>
      let k := if Z.leb 0 e then Zpos m * 2 ^ e * 100
               else round_half_even_shift (Zpos m * 100) (- e) in
      match k with
      | Zpos p =>
          let '(q, e', l) := SFdiv_core_binary prec emax (Zpos p) 0 100 0 in
          binary_round_aux prec emax s q e' l
      | _ => S754_zero s
      end
  | _ => x
  end.

(** [int(x)] for a Python float: truncation toward zero. *)
Definition float_trunc (x : float) : result Z :=
  match x with
  | S754_zero _ => Ok 0
  | S754_infinity _ => Err OverflowError
  | S754_nan => Err ValueError
  | S754_finite s m e =>
      let n := if Z.leb 0 e then Zpos m * 2 ^ e else Zpos m / 2 ^ (- e) in
      Ok (if s then - n else n)
  end.

(** ** Python values *)

(** The objects a hit mapping or a pandas cell can hold.  A float carries
    its value and its [str()] text (the shortest round-trip repr, which is
    a function of the value). *)
Inductive pyval :=
  | PyInt (z : Z)
  | PyFloat (f : float) (repr : string)
  | PyStr (s : string)
  | PyBool (b : bool)
  | PyNone.

Definition is_digit (c : ascii) : bool :=
  let n := nat_of_ascii c in Nat.leb 48 n && Nat.leb n 57.

Definition digit_val (c : ascii) : Z := Z.of_nat (nat_of_ascii c) - 48.

(** ASCII whitespace as skipped by [int(str)]. *)
Definition is_space (c : ascii) : bool :=
  let n := nat_of_ascii c in (Nat.leb 9 n && Nat.leb n 13) || Nat.eqb n 32.

Fixpoint drop_spaces (cs : list ascii) : list ascii :=
  match cs with
  | c :: cs' => if is_space c then drop_spaces cs' else cs
  | [] => []
  end.

Definition strip_spaces (cs : list ascii) : list ascii :=
  rev (drop_spaces (rev (drop_spaces cs))).

(** Decimal digits, a single [_] allowed between two digits. *)
Fixpoint digits_acc (cs : list ascii) (acc : Z) (after_us : bool) : option Z :=
  match cs with
  | [] => if after_us then None else Some acc
  | c :: cs' =>
      if is_digit c then digits_acc cs' (acc * 10 + digit_val c) false
      else if Ascii.eqb c "_"%char && negb after_us then digits_acc cs' acc true
      else None
  end.

Definition parse_digits (cs : list ascii) : option Z :=
  match cs with
  | c :: cs' => if is_digit c then digits_acc cs' (digit_val c) false else None
  | [] => None
  end.

(** [int(s)] for a [str] in base 10, over ASCII text. *)
Definition parse_int_str (s : string) : option Z :=
  match strip_spaces (list_ascii_of_string s) with
  | c :: cs =>
      if Ascii.eqb c "-"%char then option_map Z.opp (parse_digits cs)
      else if Ascii.eqb c "+"%char then parse_digits cs
      else parse_digits (c :: cs)
  | [] => None
  end.

(** [int(v)] *)
Definition py_int (v : pyval) : result Z :=
  match v with
  | PyInt z => Ok z
  | PyBool b => Ok (if b then 1 else 0)
  | PyFloat f _ => float_trunc f
  | PyStr s =>
      match parse_int_str s with
      | Some z => Ok z
      | None => Err ValueError
      end
  | PyNone => Err TypeError
  end.

(** Decimal text of a natural number given as [Z]; [fuel] bounds the
    number of digits. *)
Fixpoint dec_digits (fuel : nat) (n : Z) (acc : string) : string :=
  match fuel with
  | O => acc
  | S fuel' =>
      let c := ascii_of_nat (Z.to_nat (48 + n mod 10)) in
      let acc' := String c acc in
      if Z.ltb n 10 then acc' else dec_digits fuel' (n / 10) acc'
  end.

Definition dec_of_Z (z : Z) : string :=
  let n := Z.abs z in
  dec_digits (S (Z.to_nat (Z.log2 n))) n "".

(** [str(v)] *)
Definition py_str (v : pyval) : string :=
  match v with
  | PyInt z => if Z.ltb z 0 then "-" ++ dec_of_Z z else dec_of_Z z
  | PyFloat _ r => r
  | PyStr s => s
  | PyBool true => "True"
  | PyBool false => "False"
  | PyNone => "None"
  end.

(** ** Scoring engine ([src/analysis/scoring.py]) *)

(** [domain.models.PatternHit] *)
Record PatternHit := {
  ph_fn : string;
  ph_value : Z;
  ph_strength : option float;
  ph_base_score : option Z;
  ph_weighted_score : option float;
  ph_variant : option string;
  ph_english : option string;
  ph_japanese : option string;
  ph_typical_setup : option string;
  ph_next_move : option string;
  ph_description : option string;
  ph_date : option Z
}.

(** A raw hit is a [Mapping[str, object]]. *)
Definition mapping := list (string * pyval).

(** [PatternHit | Mapping[str, object]] *)
Inductive hit_in :=
  | HitRaw (m : mapping)
  | HitPH (p : PatternHit).

(** An entry of [_bias_map()]: the dict built for one CSV row.  Its
    ["score"] is always an int (the row's score through [int()], 0 when
    missing or unconvertible); an entry dict has seven keys, so it is
    truthy. *)
Record bias_entry := {
  be_score : Z;
  be_variant : option string;
  be_english : option string;
  be_japanese : option string;
  be_typical : option string;
  be_next_move : option string;
  be_description : option string
}.

(** The content of [_bias_map()]: function name -> (variant -> entry),
    both dicts in insertion order.  Every theorem below quantifies over the
    whole table. *)
Definition bias_table := list (string * list (string * bias_entry)).

(** The literal returned when no entry applies. *)
Definition empty_entry : bias_entry := {|
  be_score := 0; be_variant := None; be_english := None; be_japanese := None;
  be_typical := None; be_next_move := None; be_description := None |}.

(** [_normalize_variant] *)
Definition _normalize_variant (value : Z) : string :=
  if Z.ltb 0 value then "bullish"
  else if Z.ltb value 0 then "bearish"
  else "neutral".

(** [_lookup_bias]: [bias_for_fn.get(variant_key) or
    bias_for_fn.get("neutral")], then the first value of the dict, then the
    empty entry. *)
Definition _lookup_bias (BIAS : bias_table) (fn : string) (value : Z) : bias_entry :=
  match dict_get BIAS fn with
  | None | Some [] => empty_entry
  | Some bias_for_fn =>
      let variant_key := _normalize_variant value in
      match dict_get bias_for_fn variant_key with
      | Some entry => entry
      | None =>
          match dict_get bias_for_fn "neutral" with
          | Some entry => entry
          | None =>
              match bias_for_fn with
              | (_, entry) :: _ => entry
              | [] => empty_entry
              end
          end
      end
  end.

(** [_base_score]: [int(info.get("score", 0))] on an int score. *)
Definition _base_score (BIAS : bias_table) (fn : string) (value : Z) : Z :=
  be_score (_lookup_bias BIAS fn value).

(** [_extract] *)
Definition _extract (hit : hit_in) : result (string * Z) :=
  match hit with
  | HitPH p => Ok (ph_fn p, ph_value p)
  | HitRaw m =>
      let fn := py_str (match dict_get m "fn" with Some v => v | None => PyNone end) in
      value <- py_int (match dict_get m "value" with Some v => v | None => PyInt 0 end) ;;
      Ok (fn, value)
  end.

(** The loop of [total_score_from_hits], threading the float [score]. *)
Fixpoint total_loop (BIAS : bias_table) (hits : list hit_in) (score : float)
  : result float :=
  match hits with
  | [] => Ok score
  | raw :: rest =>
      p <- _extract raw ;;
      let '(fn, value) := p in
      let base := Z.abs (_base_score BIAS fn value) * (if Z.ltb 0 value then 1 else -1) in
      (* strength = abs(value) / 100.0 *)
      av <- float_of_int (Z.abs value) ;;
      let strength := fdiv av f100 in
      (* score += base * strength *)
      bf <- float_of_int base ;;
      total_loop BIAS rest (fadd score (fmul bf strength))
  end.

(** [total_score_from_hits], for the configured [CLIP_MIN] and [CLIP_MAX]. *)
Definition total_score_from_hits (CLIP_MIN CLIP_MAX : Z) (BIAS : bias_table)
  (hits : list hit_in) : result Z :=
  score <- total_loop BIAS hits fzero ;;
  r <- py_round score ;;
  Ok (Z.max CLIP_MIN (Z.min CLIP_MAX r)).

(** The configuration defaults. *)
Definition CLIP_MIN_default : Z := -5.
Definition CLIP_MAX_default : Z := 5.

(** One iteration of [enrich_hits]. *)
Definition enrich_one (BIAS : bias_table) (at_ : option Z) (raw : hit_in)
  : result PatternHit :=
  p <- _extract raw ;;
  let '(fn, value) := p in
  let info := _lookup_bias BIAS fn value in
  (* strength = abs(value) / 100 if value else None *)
  strength <- (if Z.eqb value 0 then Ok None
               else s <- int_truediv (Z.abs value) 100 ;; Ok (Some s)) ;;
  let base_score := Some (be_score info) in
  (* weighted = round(base_score * strength, 2) if both are not None *)
  weighted <- match strength, base_score with
              | Some s, Some b => bf <- float_of_int b ;; Ok (Some (py_round2 (fmul bf s)))
              | _, _ => Ok None
              end ;;
  Ok {| ph_fn := fn; ph_value := value; ph_strength := strength;
        ph_base_score := base_score; ph_weighted_score := weighted;
        ph_variant := be_variant info; ph_english := be_english info;
        ph_japanese := be_japanese info; ph_typical_setup := be_typical info;
        ph_next_move := be_next_move info; ph_description := be_description info;
        ph_date := at_ |}.

(** [enrich_hits] *)
Fixpoint enrich_hits (BIAS : bias_table) (at_ : option Z) (hits : list hit_in)
  : result (list PatternHit) :=
  match hits with
  | [] => Ok []
  | raw :: rest =>
      ph <- enrich_one BIAS at_ raw ;;
      phs <- enrich_hits BIAS at_ rest ;;
      Ok (ph :: phs)
  end.

(** [f"{score:+d}"] *)
Definition fmt_signed (z : Z) : string :=
  (if Z.ltb z 0 then "-" else "+") ++ dec_of_Z z.

(** [categorize_score] *)
Definition categorize_score (score : option Z) : option string * string :=
  match score with
  | None => (None, "—")
  | Some s =>
      if Z.leb 3 s then (Some "Strong＋", "↑↑ Strong＋ (" ++ fmt_signed s ++ ")")
      else if Z.leb 1 s then (Some "Mild＋", "↑ Mild＋ (" ++ fmt_signed s ++ ")")
      else if Z.leb s (-3) then (Some "Strong−", "↓↓ Strong− (" ++ fmt_signed s ++ ")")
      else if Z.leb s (-1) then (Some "Mild−", "↓ Mild− (" ++ fmt_signed s ++ ")")
      else (Some "Neutral", "Neutral (0)")
  end.

(** *** The bias table ([_bias_map]) *)

(** Truthiness of a cell value: a float is false only at [0.0] (a NaN
    cell, as pandas gives for an empty CSV field, is true). *)
Definition py_truthy (v : pyval) : bool :=
  match v with
  | PyInt z => negb (Z.eqb z 0)
  | PyFloat f _ => match f with S754_zero _ => false | _ => true end
  | PyStr s => negb (String.eqb s "")
  | PyBool b => b
  | PyNone => false
  end.

(** [a or b] *)
Definition py_or (a b : pyval) : pyval := if py_truthy a then a else b.

(** [row.get(key, default)] *)
Definition row_get (row : mapping) (key : string) (default : pyval) : pyval :=
  match dict_get row key with Some v => v | None => default end.

(** The dict [_bias_map] stores for one row. *)
Record bias_dict := {
  bd_score : Z;
  bd_variant : pyval;
  bd_english : pyval;
  bd_japanese : pyval;
  bd_typical : pyval;
  bd_next_move : pyval;
  bd_description : pyval
}.

Section BiasMap.

(** [str.strip] and [str.lower]. *)
Variable py_strip py_lower : string -> string.

(** One record of [BIAS.to_dict(orient="records")]: [None] when the row is
    skipped ([fn] empty), otherwise its function name, its variant key and
    the dict stored under them.  [int(score)] raising [TypeError] or
    [ValueError] gives [0]; its [OverflowError] propagates. *)
Definition bias_row (row : mapping)
  : result (option (string * string * bias_dict)) :=
  let fn := py_strip (py_str (row_get row "Function" (PyStr ""))) in
  if String.eqb fn "" then Ok None else
  let variant :=
    let v := py_lower (py_strip (py_str (row_get row "Variant" (PyStr "")))) in
    if String.eqb v "" then "neutral" else v in
  let score0 := row_get row "スコア（-5～+5)" PyNone in
  let score1 := match score0 with PyNone => row_get row "score" PyNone | s => s end in
  score <- match score1 with
           | PyNone => Ok 0
           | s => match py_int s with
                  | Ok z => Ok z
                  | Err TypeError | Err ValueError => Ok 0
                  | Err e => Err e
                  end
           end ;;
  Ok (Some (fn, variant,
    {| bd_score := score;
       bd_variant := py_or (row_get row "Variant" PyNone) (PyStr variant);
       bd_english := row_get row "English" PyNone;
       bd_japanese := row_get row "Japanese" PyNone;
       bd_typical := row_get row "典型セットアップ" PyNone;
       bd_next_move := row_get row "次の動き（傾向）" PyNone;
       bd_description := py_or (row_get row "次の動き（傾向）" PyNone)
                               (row_get row "典型セットアップ" PyNone) |})).

(** The loop of [_bias_map]:
    [mapping.setdefault(fn, {})[variant] = {...}]. *)
Fixpoint bias_map_loop (rows : list mapping)
  (m : list (string * list (string * bias_dict)))
  : result (list (string * list (string * bias_dict))) :=
  match rows with
  | [] => Ok m
  | row :: rest =>
      r <- bias_row row ;;
      match r with
      | None => bias_map_loop rest m
      | Some (fn, variant, entry) =>
          let inner := match dict_get m fn with Some d => d | None => [] end in
          bias_map_loop rest (dict_set m fn (dict_set inner variant entry))
      end
  end.

(** [_bias_map], on the records of the CSV. *)
Definition _bias_map (records : list mapping)
  : result (list (string * list (string * bias_dict))) :=
  bias_map_loop records [].

End BiasMap.

(** [_bias_map().get(fn, {}).get(variant)] *)
Definition bias_map_get (m : list (string * list (string * bias_dict)))
  (fn variant : string) : option bias_dict :=
  match dict_get m fn with
  | Some inner => dict_get inner variant
  | None => None
  end.

(** ** Pattern detection ([src/analysis/patterns.py]) *)

(** A pandas column label: a [str], or a label of another type (an int
    label such as the [0] of [pd.DataFrame([[...]])]). *)
Inductive label :=
  | LStr (s : string)
  | LInt (z : Z).

(** Truthiness of a label ([if date_col:]). *)
Definition label_truthy (l : label) : bool :=
  match l with
  | LStr s => negb (String.eqb s "")
  | LInt z => negb (Z.eqb z 0)
  end.

Definition label_eqb (a b : label) : bool :=
  match a, b with
  | LStr s, LStr t => String.eqb s t
  | LInt x, LInt y => Z.eqb x y
  | _, _ => false
  end.

(** A [pd.DataFrame]: its columns in order with their cells, and its index;
    the number of rows is the length of the index. *)
Record frame := {
  df_columns : list (label * list pyval);
  df_index : list pyval
}.

(** [df.empty]: one of the two axes has length 0. *)
Definition df_empty (df : frame) : bool :=
  Nat.eqb (List.length (df_index df)) 0 || Nat.eqb (List.length (df_columns df)) 0.

(** [df[c]] *)
Fixpoint column (cols : list (label * list pyval)) (c : label) : list pyval :=
  match cols with
  | [] => []
  | (c', xs) :: cols' => if label_eqb c c' then xs else column cols' c
  end.

(** What a TA-Lib function call [getattr(ta, fn)(o, h, l, c)] does: raise,
    return a [pd.Series], or return something else. *)
Inductive call_result :=
  | CRaise
  | CSeries (xs : list pyval)
  | COther.

Definition ta_fun := list pyval -> list pyval -> list pyval -> list pyval -> call_result.

(** The [talib] module, as the attributes [dir(ta)] lists (sorted, distinct
    names); [None] when the import failed ([ta = None]). *)
Definition ta_module := list (string * ta_fun).

(** Python positional indexing [xs[i]] / [series.iloc[i]]: a negative [i]
    counts from the end; out of range raises [IndexError]. *)
Definition py_index {A : Type} (xs : list A) (i : Z) : result A :=
  let n := Z.of_nat (List.length xs) in
  let j := if Z.ltb i 0 then i + n else i in
  if Z.leb 0 j && Z.ltb j n then
    match nth_error xs (Z.to_nat j) with
    | Some v => Ok v
    | None => Err IndexError
    end
  else Err IndexError.

(** [range(start, stop)] *)
Definition py_range (start stop : Z) : list Z :=
  map (fun i => start + Z.of_nat i) (seq 0 (Z.to_nat (stop - start))).

Fixpoint prefix_cdl_ok (p s : list ascii) : bool :=
  match p, s with
  | [], _ => true
  | a :: p', b :: s' => Ascii.eqb a b && prefix_cdl_ok p' s'
  | _ :: _, [] => false
  end.

(** [name.startswith("CDL")] *)
Definition startswith_CDL (name : string) : bool :=
  prefix_cdl_ok (list_ascii_of_string "CDL") (list_ascii_of_string name).

(** [available_pattern_functions] *)
Definition available_pattern_functions (ta : ta_module) : list string :=
  filter startswith_CDL (map fst ta).

Section Detection.

(** [str.lower] and [str.upper] (Unicode case mappings). *)
Variable py_lower py_upper : string -> string.
(** The timestamps [pd.Timestamp] values, and the date conversion of the
    date column or of the index ([pd.to_datetime(...)] followed by
    [pd.Timestamp] on each element; on a [DatetimeIndex] this is
    [index.to_pydatetime()]). *)
Variable Timestamp : Type.
Variable to_datetime : list pyval -> result (list Timestamp).

(** [{c.lower(): c for c in df.columns}]: [AttributeError] on a label that
    is not a [str]. *)
Fixpoint lower_cols (cols : list (label * list pyval)) (acc : list (string * label))
  : result (list (string * label)) :=
  match cols with
  | [] => Ok acc
  | (c, _) :: rest =>
      match c with
      | LStr s => lower_cols rest (dict_set acc (py_lower s) c)
      | LInt _ => Err AttributeError
      end
  end.

(** The detector functions selected by [patterns]. *)
Definition selected_functions (ta : ta_module) (patterns : option (list string))
  : list string :=
  let all_functions := available_pattern_functions ta in
  match patterns with
  | Some ps =>
      let enabled := map py_upper ps in
      filter (fun fn => existsb (String.eqb (py_upper fn)) enabled) all_functions
  | None => all_functions
  end.

(** The loop filling [series_map]: a raising call or a non-Series result is
    skipped. *)
Fixpoint build_series_map (ta : ta_module) (o h l c : list pyval)
  (functions : list string) (series_map : list (string * list pyval))
  : list (string * list pyval) :=
  match functions with
  | [] => series_map
  | fn :: rest =>
      let series_map' :=
        match dict_get ta fn with
        | Some f =>
            match f o h l c with
            | CSeries out => dict_set series_map fn out
            | _ => series_map
            end
        | None => series_map
        end in
      build_series_map ta o h l c rest series_map'
  end.

(** [cols.get("date") or cols.get("datetime")] *)
Definition date_col (cols : list (string * label)) : option label :=
  match dict_get cols "date" with
  | Some c => if label_truthy c then Some c else dict_get cols "datetime"
  | None => dict_get cols "datetime"
  end.

(** The values the dates are read from. *)
Definition date_source (cols : list (string * label)) (df : frame) : list pyval :=
  match date_col cols with
  | Some c => if label_truthy c then column (df_columns df) c else df_index df
  | None => df_index df
  end.

(** [_compute_pattern_series] *)
Definition _compute_pattern_series (ta : ta_module) (df : frame)
  (patterns : option (list string))
  : result (list (string * list pyval) * list Timestamp) :=
  cols <- lower_cols (df_columns df) [] ;;
  match dict_get cols "open", dict_get cols "high",
        dict_get cols "low", dict_get cols "close" with
  | Some open_col, Some high_col, Some low_col, Some close_col =>
      let o := column (df_columns df) open_col in
      let h := column (df_columns df) high_col in
      let l := column (df_columns df) low_col in
      let c := column (df_columns df) close_col in
      let functions := selected_functions ta patterns in
      let series_map := build_series_map ta o h l c functions [] in
      dates <- to_datetime (date_source cols df) ;;
      Ok (series_map, dates)
  | _, _, _, _ => Ok ([], [])
  end.

(** The nonzero outputs of all detectors at row [idx]; a cell that cannot
    be read or converted by [int()] is skipped ([except Exception:
    continue]). *)
Fixpoint day_hits (series_map : list (string * list pyval)) (idx : Z)
  : list (string * Z) :=
  match series_map with
  | [] => []
  | (fn, series) :: rest =>
      match (v <- py_index series idx ;; py_int v) with
      | Ok value =>
          if Z.eqb value 0 then day_hits rest idx else (fn, value) :: day_hits rest idx
      | Err _ => day_hits rest idx
      end
  end.

(** The [history] loop over [range(start, last_index + 1)]. *)
Fixpoint history_loop (series_map : list (string * list pyval))
  (dates : list Timestamp) (idxs : list Z)
  : result (list (Timestamp * list (string * Z))) :=
  match idxs with
  | [] => Ok []
  | idx :: rest =>
      match day_hits series_map idx with
      | [] => history_loop series_map dates rest
      | dh =>
          d <- py_index dates idx ;;
          tl <- history_loop series_map dates rest ;;
          Ok ((d, dh) :: tl)
      end
  end.

(** [detect_with_history] *)
Definition detect_with_history (ta : option ta_module) (df : frame) (lookback : Z)
  (patterns : option (list string))
  : result (list (string * Z) * list (Timestamp * list (string * Z))) :=
  match ta with
  | None => Ok ([], [])
  | Some t =>
      if df_empty df then Ok ([], []) else
      p <- _compute_pattern_series t df patterns ;;
      let '(series_map, dates) := p in
      match series_map with
      | [] => Ok ([], [])
      | _ =>
          let last_index := Z.of_nat (List.length dates) - 1 in
          let hits_today := day_hits series_map last_index in
          let start := Z.max 0 (last_index - lookback + 1) in
          history <- history_loop series_map dates (py_range start (last_index + 1)) ;;
          Ok (hits_today, history)
      end
  end.

(** The date conversion [_compute_pattern_series] performs on a frame: the
    lowered column names, then [pd.to_datetime] on the date column or the
    index. *)
Definition frame_dates (df : frame) : result (list Timestamp) :=
  cols <- lower_cols (df_columns df) [] ;;
  to_datetime (date_source cols df).

(** The frame has a column whose lowered [str] name is [key]. *)
Definition has_column (df : frame) (key : string) : bool :=
  existsb (fun c => match fst c with
                    | LStr s => String.eqb (py_lower s) key
                    | LInt _ => false
                    end) (df_columns df).

(** [detect_all]: [detect_with_history(df, lookback=1, patterns=patterns)]
    and its hits. *)
Definition detect_all (ta : option ta_module) (df : frame)
  (patterns : option (list string)) : result (list (string * Z)) :=
  p <- detect_with_history ta df 1 patterns ;;
  Ok (fst p).

End Detection.

(** What [getattr(ta, fn)(o, h, l, c)] leaves in [series_map]: the output
    when it is a [pd.Series], nothing otherwise. *)
Definition call_out (ta : ta_module) (fn : string) (o h l c : list pyval)
  : option (list pyval) :=
  match dict_get ta fn with
  | Some f => match f o h l c with CSeries out => Some out | _ => None end
  | None => None
  end.

(** The days of [idxs] with at least one nonzero output, each with its
    date and its hits, in the order of [idxs]. *)
Definition window_history {T : Type} (sm : list (string * list pyval))
  (ds : list T) (idxs : list Z) : list (T * list (string * Z)) :=
  flat_map (fun i =>
    match day_hits sm i with
    | [] => []
    | dh => match nth_error ds (Z.to_nat i) with
            | Some d => [(d, dh)]
            | None => []
            end
    end) idxs.

(** A frame is rectangular: every column has one cell per row. *)
Definition frame_wf (df : frame) : Prop :=
  Forall (fun c => List.length (snd c) = List.length (df_index df)) (df_columns df).

(** All column labels are [str]. *)
Definition str_labels (df : frame) : Prop :=
  Forall (fun c => exists s, fst c = LStr s) (df_columns df).

(** ** Price download with retries ([AnalyzerService._download_with_retry]) *)

(** What one call of [yf.download(...)] does: return a frame, or raise an
    exception (given by its [str()]). *)
Inductive download_outcome (DataFrame : Type) :=
  | Downloaded (df : DataFrame)
  | DownloadRaised (msg : string).
Arguments Downloaded {DataFrame} df.
Arguments DownloadRaised {DataFrame} msg.

(** How [_download_with_retry] ends: it returns a frame, returns [None],
    raises [app_error(code, detail=...)], or lets an exception out. *)
Inductive download_result (DataFrame : Type) :=
  | DLFrame (df : DataFrame)
  | DLNone
  | DLAppError (code : string) (detail : option string)
  | DLRaise (e : exc).
Arguments DLFrame {DataFrame} df.
Arguments DLNone {DataFrame}.
Arguments DLAppError {DataFrame} code detail.
Arguments DLRaise {DataFrame} e.

Section Download.

Variable DataFrame : Type.
(** [yf.download(symbol, ...)] at the call made after [attempt] failed
    calls. *)
Variable download : Z -> download_outcome DataFrame.
(** [time.sleep(delay)]: returns, or raises (CPython refuses a NaN, a
    negative delay and a delay too large for its clock type). *)
Variable time_sleep : float -> result unit.

(** After the loop: [raise app_error("E-YF-404", detail=str(last_exc))]
    when a call failed, [return None] otherwise. *)
Definition after_retry_loop (last_exc : option string) : download_result DataFrame :=
  match last_exc with
  | Some msg => DLAppError "E-YF-404" (Some msg)
  | None => DLNone
  end.

(** The [while attempt <= retry_attempts] loop, with the delays passed to
    [time.sleep]; [fuel] bounds the iterations ([retry_attempts + 1] of
    them at most). *)
Fixpoint retry_loop (retry_attempts : Z) (retry_backoff : float) (fuel : nat)
  (attempt : Z) (delay : float) (last_exc : option string)
  : download_result DataFrame * list float :=
  match fuel with
  | O => (after_retry_loop last_exc, [])
  | S fuel' =>
      if Z.leb attempt retry_attempts then
        match download attempt with
        | Downloaded df => (DLFrame df, [])
        | DownloadRaised msg =>
            let attempt' := attempt + 1 in
            if Z.ltb retry_attempts attempt' then (after_retry_loop (Some msg), [])
            else
              match time_sleep delay with
              | Err e => (DLRaise e, [])
              | Ok _ =>
                  let '(r, sleeps) :=
                    retry_loop retry_attempts retry_backoff fuel' attempt'
                      (fmul delay retry_backoff) (Some msg) in
                  (r, delay :: sleeps)
              end
        end
      else (after_retry_loop last_exc, [])
  end.

(** [_download_with_retry]: [attempt = 0], [delay = 1.0]. *)
Definition _download_with_retry (retry_attempts : Z) (retry_backoff : float)
  : download_result DataFrame * list float :=
  retry_loop retry_attempts retry_backoff (Z.to_nat (retry_attempts + 1)) 0 fone None.

End Download.

(** The delays [d, d*b, d*b*b, ...] ([n] of them), each product rounded
    as a float. *)
Fixpoint backoff_delays (d b : float) (n : nat) : list float :=
  match n with
  | O => []
  | S n' => d :: backoff_delays (fmul d b) b n'
  end.

(** ** Reference definition of the composite score (spec, section 4.2)

    Follows the spec's words: [base := |bias_score| * sign(value)],
    [strength = |value| / 100] as a float, the running float total
    [sum(base * strength)], rounded to the nearest integer with ties to
    even, clamped to [[CLIP_MIN, CLIP_MAX]]. *)

Fixpoint ref_sum (BIAS : bias_table) (hits : list hit_in) (score : float)
  : result float :=
  match hits with
  | [] => Ok score
  | raw :: rest =>
      p <- _extract raw ;;
      let '(fn, value) := p in
      let base := Z.abs (be_score (_lookup_bias BIAS fn value)) * Z.sgn value in
      av <- float_of_int (Z.abs value) ;;
      let strength := fdiv av f100 in
      bf <- float_of_int base ;;
      ref_sum BIAS rest (fadd score (fmul bf strength))
  end.

(** The exact rational value of a finite float with a negative exponent. *)
Definition Q_of_finite (s : bool) (m : positive) (k : positive) : Q :=
  Qmake (if s then Zneg m else Zpos m) (Pos.pow 2 k).

(** Nearest integer to [q], ties to the even neighbour. *)
Definition nearest_even (q : Q) : Z :=
  let f := Qfloor q in
  match Qcompare (q - inject_Z f) (1 # 2) with
  | Lt => f
  | Gt => f + 1
  | Eq => if Z.even f then f else f + 1
  end.

Definition ref_round (x : float) : result Z :=
  match x with
  | S754_zero _ => Ok 0
  | S754_infinity _ => Err OverflowError
  | S754_nan => Err ValueError
  | S754_finite s m e =>
      match e with
      | Zneg k => Ok (nearest_even (Q_of_finite s m k))
      | _ => Ok ((if s then Zneg m else Zpos m) * 2 ^ e)
      end
  end.

Definition ref_total_score (CLIP_MIN CLIP_MAX : Z) (BIAS : bias_table)
  (hits : list hit_in) : result Z :=
  score <- ref_sum BIAS hits fzero ;;
  r <- ref_round score ;;
  Ok (Z.max CLIP_MIN (Z.min CLIP_MAX r)).

(** The bias table of the reference dataset: every score in [[-5, 5]]. *)
Definition bias_scores_in_range (BIAS : bias_table) : Prop :=
  forall fn d v e, In (fn, d) BIAS -> In (v, e) d -> -5 <= be_score e <= 5.

(** ** Float comparisons with zero *)

(** [x > 0] and [x < 0] for a Python float ([False] on NaN). *)
Definition float_gt0 (x : float) : bool := SFltb fzero x.
Definition float_lt0 (x : float) : bool := SFltb x fzero.

(** Sign classes of a float: [nonpos_class x] when [x > 0] is false
    whatever [x] is (a negative number, a zero, [-inf] or NaN), and
    [nonneg_class x] when [x < 0] is false. *)
Definition nonpos_class (x : float) : bool :=
  match x with
  | S754_finite false _ _ | S754_infinity false => false
  | _ => true
  end.

Definition nonneg_class (x : float) : bool :=
  match x with
  | S754_finite true _ _ | S754_infinity true => false
  | _ => true
  end.

(** What [enrich_hits] puts in one [PatternHit]. *)
Definition enriched_ok (BIAS : bias_table) (ph : PatternHit) : Prop :=
  let b := be_score (_lookup_bias BIAS (ph_fn ph) (ph_value ph)) in
  ph_base_score ph = Some b /\
  (ph_weighted_score ph = None <-> ph_value ph = 0) /\
  (forall w, ph_weighted_score ph = Some w ->
     (b <= 0 -> float_gt0 w = false) /\ (0 <= b -> float_lt0 w = false)).

(** Two floats that are equal, or both zeros of any sign. *)
Definition same_up_to_zero_sign (x y : float) : Prop :=
  x = y \/ exists a b, x = S754_zero a /\ y = S754_zero b.

Definition same_result (r r' : result float) : Prop :=
  match r, r' with
  | Ok x, Ok y => same_up_to_zero_sign x y
  | Err e, Err e' => e = e'
  | _, _ => False
  end.

(** The integer nearest to [n / d] ([d > 0]), ties to even, from the
    quotient and remainder of the floor division. *)
Definition round_half_even_div (n d : Z) : Z :=
  let q := n / d in
  let r := n mod d in
  match Z.compare (2 * r) d with
  | Lt => q
  | Gt => q + 1
  | Eq => if Z.even q then q else q + 1
  end.

(** [f k] for every [k] in [[lo, lo + 2^n)], by halving the interval. *)
Fixpoint check_range (f : Z -> bool) (n : nat) (lo : Z) : bool :=
  match n with
  | O => f lo
  | S n' => check_range f n' lo && check_range f n' (lo + 2 ^ Z.of_nat n')
  end.

(** A raw hit as the data model has it: [fn] and [value] readable, and
    [|value|] at most 1000 (the model's range is [[-100, 100]]). *)
Definition well_formed_hit (h : hit_in) : Prop :=
  exists fn v, _extract h = Ok (fn, v) /\ Z.abs v <= 1000.

(** ** Price cleaning ([AnalyzerService._sanitize_ohlc]) *)

(** A price frame of float64 columns, by column name. *)
Definition price_frame := list (string * list float).

(** The columns [_sanitize_ohlc] looks at. *)
Definition ohlc_names : list string :=
  ["Open"; "High"; "Low"; "Close"; "Adj Close"; "open"; "high"; "low"; "close"].

(** [c in df.columns] *)
Definition has_col (df : price_frame) (c : string) : bool :=
  existsb (fun p => String.eqb (fst p) c) df.

(** [df[c]] *)
Definition col_get (df : price_frame) (c : string) : list float :=
  match dict_get df c with Some xs => xs | None => [] end.

(** [pd.isna(x)] *)
Definition is_nan (x : float) : bool :=
  match x with S754_nan => true | _ => false end.

(** The float [NaN]. *)
Definition fnan : float := S754_nan.

(** [Series.min()] (NaN skipped); [None] when every value is NaN (pandas
    gives NaN). *)
Fixpoint nanmin_acc (xs : list float) (acc : option float) : option float :=
  match xs with
  | [] => acc
  | x :: xs' =>
      nanmin_acc xs'
        (if is_nan x then acc
         else match acc with
              | None => Some x
              | Some m => Some (if SFltb x m then x else m)
              end)
  end.

Definition nanmin (xs : list float) : float :=
  match nanmin_acc xs None with Some m => m | None => fnan end.

(** [_sanitize_ohlc] *)
Definition _sanitize_ohlc (df : price_frame) : price_frame :=
  let present := filter (has_col df) ohlc_names in
  match present with
  | [] => df
  | _ =>
      let ohlc := map (col_get df) present in
      (* ohlc[ohlc > 0].min().min() *)
      let min_positive :=
        nanmin (map (fun xs => nanmin (map (fun x => if float_gt0 x then x else fnan) xs)) ohlc) in
      if is_nan min_positive || SFleb min_positive fzero then df
      else
        (* df[col] = df[col].where(df[col] > 0, min_positive) *)
        fold_left (fun df col =>
          dict_set df col (map (fun x => if float_gt0 x then x else min_positive) (col_get df col)))
          present df
  end.


(** ** Table rows of the main view ([src/ui/viewmodels/main.py]) *)

(** [SymbolRecord] *)
Record SymbolRecord := {
  sr_symbol : string;
  sr_name : string;
  sr_sector : string;
  sr_market : option string
}.

(** [AnalysisSummary], with the fields the table reads. *)
Record AnalysisSummary := {
  as_symbol : string;
  as_hits : list PatternHit;
  as_total_score : Z;
  as_last_date : option Z
}.

(** [TableRow] *)
Record TableRow := {
  tr_symbol : string;
  tr_name : string;
  tr_market : string;
  tr_sector : string;
  tr_score : option Z;
  tr_hit_count : option Z;
  tr_last_date : option Z;
  tr_score_label : string;
  tr_score_category : option string
}.

(** [{s.symbol: s for s in summaries}] *)
Definition summary_map (summaries : list AnalysisSummary) : list (string * AnalysisSummary) :=
  fold_left (fun m s => dict_set m (as_symbol s) s) summaries [].

(** [r.market or ""] *)
Definition market_or_empty (m : option string) : string :=
  match m with Some s => s | None => "" end.

(** One row of [_to_rows_with_summary]; a dataclass instance is always
    true, so [if summary] tests [summary is not None]. *)
Definition row_with_summary (sm : list (string * AnalysisSummary)) (r : SymbolRecord) : TableRow :=
  let summary := dict_get sm (sr_symbol r) in
  let score_value := option_map as_total_score summary in
  let '(score_category, score_label) := categorize_score score_value in
  {| tr_symbol := sr_symbol r;
     tr_name := sr_name r;
     tr_sector := sr_sector r;
     tr_market := market_or_empty (sr_market r);
     tr_score := score_value;
     tr_hit_count := option_map (fun s => Z.of_nat (List.length (as_hits s))) summary;
     tr_last_date := match summary with Some s => as_last_date s | None => None end;
     tr_score_label := score_label;
     tr_score_category := score_category |}.

(** [_to_rows_with_summary] *)
Definition _to_rows_with_summary (records : list SymbolRecord) (summaries : list AnalysisSummary)
  : list TableRow :=
  let sm := summary_map summaries in
  map (row_with_summary sm) records.

(** [_passes_filters]; a missing score compares as [float("-inf")],
    which is below every integer. *)
Definition _passes_filters (market_filter : option string) (min_score : option Z) (row : TableRow)
  : bool :=
  if (match market_filter with Some f => negb (String.eqb f "") && negb (String.eqb (tr_market row) f)
      | None => false end)
  then false
  else match min_score with
       | Some m =>
           match tr_score row with
           | None => false
           | Some sc => if Z.ltb sc m then false else true
           end
       | None => true
       end.

(** The rows of [_emit_state]. *)
Definition emit_rows (market_filter : option string) (min_score : option Z) (rows : list TableRow)
  : list TableRow :=
  filter (_passes_filters market_filter min_score) rows.

(** ** Concrete inputs *)

Definition ascii_lower_char (c : ascii) : ascii :=
  let n := nat_of_ascii c in
  if Nat.leb 65 n && Nat.leb n 90 then ascii_of_nat (n + 32) else c.

Definition ascii_upper_char (c : ascii) : ascii :=
  let n := nat_of_ascii c in
  if Nat.leb 97 n && Nat.leb n 122 then ascii_of_nat (n - 32) else c.

(** [str.lower] / [str.upper] on ASCII text. *)
Definition ascii_lower (s : string) : string :=
  string_of_list_ascii (map ascii_lower_char (list_ascii_of_string s)).
Definition ascii_upper (s : string) : string :=
  string_of_list_ascii (map ascii_upper_char (list_ascii_of_string s)).

(** Timestamps as integers; [pd.to_datetime] read on integer cells. *)
Definition int_to_datetime (xs : list pyval) : result (list Z) :=
  fold_right (fun x acc => d <- py_int x ;; ds <- acc ;; Ok (d :: ds)) (Ok []) xs.

Definition mk_entry (score : Z) (variant : string) : bias_entry := {|
  be_score := score; be_variant := Some variant; be_english := None;
  be_japanese := None; be_typical := None; be_next_move := None;
  be_description := None |}.

(** A bias table in the shape of the reference CSV: engulfing has both
    variants, the hammer only a bullish row. *)
Definition sample_bias : bias_table := [
  ("CDLENGULFING", [("bullish", mk_entry 3 "Bullish"); ("bearish", mk_entry (-3) "Bearish")]);
  ("CDLHAMMER", [("bullish", mk_entry 2 "Bullish")])
].

Definition hit (fn : string) (v : pyval) : hit_in :=
  HitRaw [("fn", PyStr fn); ("value", v)].

(** Literal scenario A of the spec. *)
Definition scenario_A : list hit_in := [
  hit "CDLENGULFING" (PyInt 100);
  hit "CDLENGULFING" (PyInt (-100));
  hit "CDLKICKINGBYLENGTH" (PyInt 200)
].

(** A TA-Lib module with one detector that fires on the last two bars. *)
Definition sample_ta : ta_module := [
  ("CDLDOJI", fun o _ _ _ =>
     CSeries (map (fun _ => PyInt 0) (skipn 2 o) ++ [PyInt 100; PyInt (-100)]));
  ("MA", fun _ _ _ _ => COther)
].

Definition ohlc_columns (n : nat) : list (label * list pyval) :=
  map (fun name => (LStr name, repeat (PyInt 10) n)) ["Open"; "High"; "Low"; "Close"].

(** Three daily bars with a [Date] column. *)
Definition sample_frame : frame := {|
  df_columns := (LStr "Date", [PyInt 1; PyInt 2; PyInt 3]) :: ohlc_columns 3;
  df_index := [PyInt 0; PyInt 1; PyInt 2] |}.

(** The same bars with one more column labelled by the int [0]. *)
Definition frame_int_label : frame := {|
  df_columns := df_columns sample_frame ++ [(LInt 0, [PyInt 5; PyInt 5; PyInt 5])];
  df_index := df_index sample_frame |}.

(** A frame built from a bare list of rows: int labels only, no OHLC. *)
Definition frame_no_ohlc : frame := {|
  df_columns := [(LInt 0, [PyInt 1; PyInt 3]); (LInt 1, [PyInt 2; PyInt 4])];
  df_index := [PyInt 0; PyInt 1] |}.

(** [str.strip] on ASCII text. *)
Definition ascii_strip (s : string) : string :=
  string_of_list_ascii (strip_spaces (list_ascii_of_string s)).

(** CSV records for the bias table: two hammer rows with the same variant,
    a row without a function name, and a row whose score cell is a NaN. *)
Definition sample_rows : list mapping := [
  [("Function", PyStr "CDLHAMMER"); ("Variant", PyStr "Bullish");
   ("スコア（-5～+5)", PyInt 1); ("English", PyStr "Hammer")];
  [("Function", PyStr "  "); ("Variant", PyStr "Bearish");
   ("スコア（-5～+5)", PyInt (-2))];
  [("Function", PyStr "CDLDOJI"); ("Variant", PyStr "");
   ("スコア（-5～+5)", PyFloat S754_nan "nan")];
  [("Function", PyStr " CDLHAMMER "); ("Variant", PyStr "BULLISH ");
   ("スコア（-5～+5)", PyInt 2); ("English", PyStr "Hammer")]
].


(** The setting [retry_backoff = 1.6]: the float nearest to [16 / 10]. *)
Definition backoff_1_6 : float :=
  fdiv (binary_normalize prec emax 16 0 false) (binary_normalize prec emax 10 0 false).

(** A download that times out twice, then returns the frame [7]. *)
Definition flaky_download (attempt : Z) : download_outcome nat :=
  if Z.ltb attempt 2 then DownloadRaised "timed out" else Downloaded 7%nat.

(** [time.sleep] accepting every delay. *)
Definition sleep_ok (_ : float) : result unit := Ok tt.

(** The float of an integer. *)
Definition fint (z : Z) : float := binary_normalize prec emax z 0 false.


(** * Properties *)

(** ** Helper lemmas *)

Lemma bind_ok {A B : Type} (m : result A) (k : A -> result B) (b : B) :
  bind m k = Ok b -> exists a, m = Ok a /\ k a = Ok b.
Proof. destruct m; simpl; [eauto | discriminate]. Qed.

Lemma bind_err_l {A B : Type} (m : result A) (k : A -> result B) :
  is_ok m = false -> is_ok (bind m k) = false.
Proof. destruct m; simpl; congruence. Qed.

Lemma total_loop_extract_err :
  forall BIAS hits h score,
    In h hits -> is_ok (_extract h) = false ->
    is_ok (total_loop BIAS hits score) = false.
Proof.
  intros BIAS hits; induction hits as [|a rest IH]; intros h score Hin Hx.
  - destruct Hin.
  - simpl. destruct Hin as [<- | Hin].
    + apply bind_err_l; exact Hx.
    + destruct (_extract a) as [[fn v]|e]; simpl; [|reflexivity].
      destruct (float_of_int (Z.abs v)); simpl; [|reflexivity].
      destruct (float_of_int _); simpl; [|reflexivity].
      eapply IH; eauto.
Qed.

(** ** C1: the clamp *)

(** C1 (as stated: every finite collection yields an integer in the clamp
    range) fails: a hit whose value is too large for a float makes
    [abs(value) / 100.0] raise [OverflowError]. *)
Lemma C1_overflow_counterexample :
  total_score_from_hits CLIP_MIN_default CLIP_MAX_default sample_bias
    [hit "CDLENGULFING" (PyInt (10 ^ 400))] = Err OverflowError.
Proof. vm_compute. reflexivity. Qed.

(** C1 (amended): whenever [total_score_from_hits] returns, its result lies
    in [[CLIP_MIN, CLIP_MAX]] (for [CLIP_MIN <= CLIP_MAX], e.g. the default
    [[-5, 5]]); the empty collection gives 0 when 0 is in the range. *)
Theorem total_score_from_hits_clamped :
  forall CLIP_MIN CLIP_MAX BIAS,
    CLIP_MIN <= CLIP_MAX ->
    (forall hits z,
        total_score_from_hits CLIP_MIN CLIP_MAX BIAS hits = Ok z ->
        CLIP_MIN <= z <= CLIP_MAX) /\
    (CLIP_MIN <= 0 <= CLIP_MAX ->
     total_score_from_hits CLIP_MIN CLIP_MAX BIAS [] = Ok 0).
Proof.
  intros CLIP_MIN CLIP_MAX BIAS Hle; split.
  - intros hits z H. unfold total_score_from_hits in H.
    apply bind_ok in H as [score [_ H]].
    apply bind_ok in H as [r [_ H]].
    injection H as <-. lia.
  - intros H0. unfold total_score_from_hits. simpl. f_equal. lia.
Qed.

Lemma total_score_from_hits_clamped_witness :
  -5 <= 5 /\
  total_score_from_hits (-5) 5 sample_bias scenario_A = Ok 0 /\
  -5 <= 0 <= 5.
Proof.
  split; [lia|].
  assert (H : total_score_from_hits (-5) 5 sample_bias scenario_A = Ok 0)
    by (vm_compute; reflexivity).
  split; [exact H|].
  exact (proj1 (total_score_from_hits_clamped (-5) 5 sample_bias
                  ltac:(lia)) scenario_A 0 H).
Defined.

(** ** C4: the categories partition the integers *)

(** C4: [categorize_score] is total on the integers: every score gets
    exactly one of the five categories, with inclusive boundaries
    (>= 3 strong positive, 1..2 mild positive, 0 neutral, -2..-1 mild
    negative, <= -3 strong negative), and [None] gives [(None, "—")]. *)
Theorem categorize_score_partition :
  categorize_score None = (None, "—") /\
  forall score : Z, exists cat label,
    categorize_score (Some score) = (Some cat, label) /\
    (cat = "Strong＋" <-> 3 <= score) /\
    (cat = "Mild＋" <-> 1 <= score <= 2) /\
    (cat = "Neutral" <-> score = 0) /\
    (cat = "Mild−" <-> -2 <= score <= -1) /\
    (cat = "Strong−" <-> score <= -3).
Proof.
  split; [reflexivity|].
  intros score. unfold categorize_score.
  destruct (Z.leb_spec 3 score);
    [|destruct (Z.leb_spec 1 score);
      [|destruct (Z.leb_spec score (-3));
        [|destruct (Z.leb_spec score (-1))]]];
    eexists; eexists; (split; [reflexivity|]);
    repeat split; intros; try discriminate; try lia; try reflexivity.
Qed.

(** ** C5: the literal labels of scenario B *)

(** C5 (as stated) fails: the code's categories and labels use the
    full-width plus and the minus sign, not ["Mild-positive"] and an ASCII
    ["+"]. *)
Lemma C5_label_counterexample :
  categorize_score (Some 2) <> (Some "Mild-positive", "↑ Mild+ (+2)").
Proof. vm_compute. discriminate. Qed.

(** C5 (amended): the exact pairs the code returns for scenario B, as the
    repository's test asserts them. *)
Theorem categorize_score_scenario_B :
  categorize_score (Some 4) = (Some "Strong＋", "↑↑ Strong＋ (+4)") /\
  categorize_score (Some 2) = (Some "Mild＋", "↑ Mild＋ (+2)") /\
  categorize_score (Some 0) = (Some "Neutral", "Neutral (0)") /\
  categorize_score (Some (-1)) = (Some "Mild−", "↓ Mild− (-1)") /\
  categorize_score (Some (-5)) = (Some "Strong−", "↓↓ Strong− (-5)") /\
  categorize_score None = (None, "—").
Proof. repeat split; vm_compute; reflexivity. Qed.

(** ** C6: malformed hit records *)

(** C6 (as stated: a malformed record is skipped) fails: [int("abc")]
    raises [ValueError] out of [total_score_from_hits]. *)
Lemma C6_malformed_counterexample :
  total_score_from_hits CLIP_MIN_default CLIP_MAX_default sample_bias
    [hit "CDLENGULFING" (PyStr "abc"); hit "CDLENGULFING" (PyInt 100)]
  = Err ValueError.
Proof. vm_compute. reflexivity. Qed.

(** C6 (amended): a record whose value [int()] cannot convert is not
    skipped: [total_score_from_hits] raises and returns no score. *)
Theorem total_score_from_hits_malformed_raises :
  forall CLIP_MIN CLIP_MAX BIAS hits h,
    In h hits -> is_ok (_extract h) = false ->
    is_ok (total_score_from_hits CLIP_MIN CLIP_MAX BIAS hits) = false.
Proof.
  intros CLIP_MIN CLIP_MAX BIAS hits h Hin Hx.
  unfold total_score_from_hits. apply bind_err_l.
  eapply total_loop_extract_err; eauto.
Qed.

Lemma total_score_from_hits_malformed_raises_witness :
  In (hit "CDLENGULFING" PyNone) [hit "CDLENGULFING" PyNone] /\
  is_ok (_extract (hit "CDLENGULFING" PyNone)) = false /\
  is_ok (total_score_from_hits (-5) 5 sample_bias [hit "CDLENGULFING" PyNone]) = false.
Proof.
  split; [left; reflexivity|]. split; [reflexivity|].
  apply (total_score_from_hits_malformed_raises (-5) 5 sample_bias
           [hit "CDLENGULFING" PyNone] (hit "CDLENGULFING" PyNone));
    [left; reflexivity | reflexivity].
Defined.

(** ** C7: the bias lookup and its fallbacks *)

(** C7: the variant follows the sign of the value; the lookup returns the
    [(fn, variant)] entry, else the [(fn, "neutral")] entry, else an entry
    present for [fn], and the empty entry (score 0, no text) when [fn] has
    no entries. *)
Theorem _lookup_bias_fallbacks :
  forall (BIAS : bias_table) (fn : string) (value : Z),
    (_normalize_variant value = "bullish" <-> 0 < value) /\
    (_normalize_variant value = "bearish" <-> value < 0) /\
    (_normalize_variant value = "neutral" <-> value = 0) /\
    (forall d e, dict_get BIAS fn = Some d ->
       dict_get d (_normalize_variant value) = Some e ->
       _lookup_bias BIAS fn value = e) /\
    (forall d e, dict_get BIAS fn = Some d ->
       dict_get d (_normalize_variant value) = None ->
       dict_get d "neutral" = Some e ->
       _lookup_bias BIAS fn value = e) /\
    (forall d, dict_get BIAS fn = Some d -> d <> [] ->
       dict_get d (_normalize_variant value) = None ->
       dict_get d "neutral" = None ->
       exists k, In (k, _lookup_bias BIAS fn value) d) /\
    ((forall d, dict_get BIAS fn = Some d -> d = []) ->
       _lookup_bias BIAS fn value = empty_entry) /\
    (be_score empty_entry = 0 /\ be_variant empty_entry = None /\
     be_english empty_entry = None /\ be_japanese empty_entry = None /\
     be_typical empty_entry = None /\ be_next_move empty_entry = None /\
     be_description empty_entry = None).
Proof.
  intros BIAS fn value.
  assert (Hv : (_normalize_variant value = "bullish" <-> 0 < value) /\
               (_normalize_variant value = "bearish" <-> value < 0) /\
               (_normalize_variant value = "neutral" <-> value = 0)).
  { unfold _normalize_variant.
    destruct (Z.ltb_spec 0 value); [|destruct (Z.ltb_spec value 0)];
      repeat split; intros; try discriminate; try lia; try reflexivity. }
  destruct Hv as (Hb & Hr & Hn).
  split; [exact Hb|]. split; [exact Hr|]. split; [exact Hn|].
  unfold _lookup_bias.
  split; [|split; [|split; [|split]]].
  - intros d e Hd He. rewrite Hd. destruct d; [discriminate|]. rewrite He. reflexivity.
  - intros d e Hd He Hneu. rewrite Hd. destruct d; [discriminate|].
    rewrite He, Hneu. reflexivity.
  - intros d Hd Hne He Hneu. rewrite Hd. destruct d as [|[k e] d']; [congruence|].
    rewrite He, Hneu. exists k. left. reflexivity.
  - intros Hall. destruct (dict_get BIAS fn) as [d|] eqn:Hd; [|reflexivity].
    rewrite (Hall d eq_refl). reflexivity.
  - repeat split.
Qed.

(** ** C3: the sign of [weighted_score] *)

Lemma binary_round_aux_class :
  forall s m e l,
    (s = true -> nonpos_class (binary_round_aux prec emax s m e l) = true) /\
    (s = false -> nonneg_class (binary_round_aux prec emax s m e l) = true).
Proof.
  intros s m e l. unfold binary_round_aux.
  destruct (shr_fexp prec emax m e l) as [mrs' e'].
  destruct (shr_fexp prec emax _ e' loc_Exact) as [mrs'' e''].
  destruct (shr_m mrs'') as [|p|p]; [| destruct (Z.leb e'' (emax - prec)) |];
    split; intros ->; reflexivity.
Qed.

Lemma float_of_int_class :
  forall b f, float_of_int b = Ok f ->
    (b <= 0 -> nonpos_class f = true) /\ (0 <= b -> nonneg_class f = true).
Proof.
  intros b f H. unfold float_of_int, binary_normalize in H.
  destruct b as [|p|p].
  - injection H as <-. split; reflexivity.
  - unfold binary_round in H. destruct (shl_align _ _ _) as [mz ez].
    pose proof (proj2 (binary_round_aux_class false (Zpos mz) ez loc_Exact) eq_refl) as Hc.
    destruct (binary_round_aux _ _ _ _ _ _); try discriminate; injection H as <-;
      split; intros; try lia; exact Hc.
  - unfold binary_round in H. destruct (shl_align _ _ _) as [mz ez].
    pose proof (proj1 (binary_round_aux_class true (Zpos mz) ez loc_Exact) eq_refl) as Hc.
    destruct (binary_round_aux _ _ _ _ _ _); try discriminate; injection H as <-;
      split; intros; try lia; exact Hc.
Qed.

Lemma int_truediv_class :
  forall a b f, 0 <= a -> int_truediv a b = Ok f -> nonneg_class f = true.
Proof.
  intros a b f Ha H. unfold int_truediv in H.
  destruct a as [|p|p]; [injection H as <-; reflexivity| |lia].
  simpl in H. destruct (SFdiv_core_binary _ _ _ _ _ _) as [[m e] l].
  pose proof (proj2 (binary_round_aux_class false m e l) eq_refl) as Hc.
  destruct (binary_round_aux _ _ _ _ _ _); try discriminate; injection H as <-; exact Hc.
Qed.

Lemma fmul_class :
  forall x y, nonneg_class y = true ->
    (nonpos_class x = true -> nonpos_class (fmul x y) = true) /\
    (nonneg_class x = true -> nonneg_class (fmul x y) = true).
Proof.
  intros x y Hy. unfold fmul, SFmul.
  destruct x as [sx|sx| |sx mx ex], y as [sy|sy| |sy my ey];
    try destruct sx; try destruct sy; simpl in *; try discriminate;
    split; intros; try discriminate; try reflexivity;
    first [ apply (proj1 (binary_round_aux_class true _ _ _)); reflexivity
          | apply (proj2 (binary_round_aux_class false _ _ _)); reflexivity ].
Qed.

Lemma py_round2_class :
  forall x,
    (nonpos_class x = true -> nonpos_class (py_round2 x) = true) /\
    (nonneg_class x = true -> nonneg_class (py_round2 x) = true).
Proof.
  intros x. destruct x as [s|s| |s m e]; try (split; intros H; exact H).
  unfold py_round2.
  destruct (if Z.leb 0 e then _ else _) as [|p|p];
    try (destruct s; split; intros H; try discriminate; reflexivity).
  destruct (SFdiv_core_binary _ _ _ _ _ _) as [[q e'] l].
  destruct s; split; intros H; try discriminate.
  - apply (proj1 (binary_round_aux_class true _ _ _)); reflexivity.
  - apply (proj2 (binary_round_aux_class false _ _ _)); reflexivity.
Qed.

Lemma nonpos_not_gt0 : forall x, nonpos_class x = true -> float_gt0 x = false.
Proof. intros [s|s| |s m e] H; try destruct s; try discriminate; reflexivity. Qed.

Lemma nonneg_not_lt0 : forall x, nonneg_class x = true -> float_lt0 x = false.
Proof. intros [s|s| |s m e] H; try destruct s; try discriminate; reflexivity. Qed.

Lemma enrich_one_ok :
  forall BIAS at_ raw ph, enrich_one BIAS at_ raw = Ok ph -> enriched_ok BIAS ph.
Proof.
  intros BIAS at_ raw ph H. unfold enrich_one in H.
  apply bind_ok in H as [[fn value] [_ H]].
  destruct (Z.eqb_spec value 0) as [Hz|Hz]; simpl in H.
  - injection H as <-. unfold enriched_ok; simpl.
    split; [reflexivity|]. split; [split; auto|]. intros w Hw; discriminate.
  - destruct (int_truediv (Z.abs value) 100) as [s|e] eqn:Hs; simpl in H; [|discriminate].
    destruct (float_of_int (be_score (_lookup_bias BIAS fn value))) as [bf|e] eqn:Hb;
      simpl in H; [|discriminate].
    injection H as <-. unfold enriched_ok; simpl.
    split; [reflexivity|]. split; [split; [discriminate | intros; contradiction]|].
    intros w Hw. injection Hw as <-.
    pose proof (int_truediv_class _ _ _ (Z.abs_nonneg value) Hs) as Hsc.
    destruct (float_of_int_class _ _ Hb) as [Hneg Hpos].
    split; intros Hbz.
    + apply nonpos_not_gt0, (proj1 (py_round2_class _)),
        (proj1 (fmul_class bf s Hsc)), Hneg, Hbz.
    + apply nonneg_not_lt0, (proj2 (py_round2_class _)),
        (proj2 (fmul_class bf s Hsc)), Hpos, Hbz.
Qed.

(** C3 (as stated: a hit with [value < 0] never gets [weighted_score > 0],
    whatever the stored sign) fails: a bearish hammer falls back to the
    hammer's bullish entry and is weighted [+2.0]. *)
Lemma C3_sign_counterexample :
  match enrich_hits sample_bias None [hit "CDLHAMMER" (PyInt (-100))] with
  | Ok [ph] =>
      ph_value ph = -100 /\
      match ph_weighted_score ph with
      | Some w => float_gt0 w = true
      | None => False
      end
  | _ => False
  end.
Proof. vm_compute. split; reflexivity. Qed.

(** C3 (amended): [enrich_hits] gives each hit the stored score of the
    looked-up entry as [base_score]; [weighted_score] is [None] exactly
    when [value == 0], and otherwise is never [> 0] when that stored score
    is [<= 0] and never [< 0] when it is [>= 0]: its sign follows the
    stored entry, not [value]. *)
Theorem enrich_hits_weighted_sign :
  forall BIAS at_ hits phs,
    enrich_hits BIAS at_ hits = Ok phs -> Forall (enriched_ok BIAS) phs.
Proof.
  intros BIAS at_ hits; induction hits as [|raw rest IH]; intros phs H; simpl in H.
  - injection H as <-. constructor.
  - apply bind_ok in H as [ph [H1 H]].
    apply bind_ok in H as [phs' [H2 H]].
    injection H as <-. constructor; [eapply enrich_one_ok; eauto | apply IH; exact H2].
Qed.

Lemma enrich_hits_weighted_sign_witness :
  Forall (enriched_ok sample_bias)
    (match enrich_hits sample_bias None [hit "CDLENGULFING" (PyInt (-100))] with
     | Ok phs => phs | Err _ => [] end).
Proof.
  apply (enrich_hits_weighted_sign sample_bias None [hit "CDLENGULFING" (PyInt (-100))]).
  vm_compute. reflexivity.
Defined.

(** ** C2: refinement of the spec's reference definition *)

Lemma fadd_same :
  forall x x' t t', same_up_to_zero_sign x x' -> same_up_to_zero_sign t t' ->
    same_up_to_zero_sign (fadd x t) (fadd x' t').
Proof.
  intros x x' t t' Hx Ht. unfold same_up_to_zero_sign in *.
  destruct Hx as [<- | (a & b & -> & ->)]; destruct Ht as [<- | (c & d & -> & ->)].
  - left; reflexivity.
  - destruct x as [s|s| |s m e]; unfold fadd, SFadd;
      try (destruct s, c, d); simpl; eauto.
  - destruct t as [s|s| |s m e]; unfold fadd, SFadd;
      try (destruct s, a, b); simpl; eauto.
  - unfold fadd, SFadd. destruct a, b, c, d; simpl; eauto.
Qed.

Lemma nearest_even_Qmake :
  forall n D, nearest_even (n # D) = round_half_even_div n (Zpos D).
Proof.
  intros n D. unfold nearest_even, round_half_even_div, Qcompare, Qminus, Qplus, Qopp.
  unfold inject_Z, Qfloor. simpl Qnum. simpl Qden.
  rewrite Pos.mul_1_r.
  replace ((n * 1 + - (n / Zpos D) * Zpos D) * 2) with (2 * (n mod Zpos D))
    by (rewrite (Z.mod_eq n (Zpos D)) by lia; lia).
  replace (1 * Zpos D) with (Zpos D) by lia.
  reflexivity.
Qed.

Lemma round_half_even_div_opp :
  forall m d, 0 < d ->
    round_half_even_div (- m) d = - round_half_even_div m d.
Proof.
  intros m d Hd. unfold round_half_even_div.
  pose proof (Z.mod_pos_bound m d Hd) as Hr.
  destruct (Z.eq_dec (m mod d) 0) as [H0|H0].
  - rewrite (Z_div_zero_opp_full m d H0), (Z_mod_zero_opp_full m d H0), H0.
    replace (2 * 0) with 0 by lia.
    destruct (Z.compare_spec 0 d); lia.
  - rewrite (Z_div_nz_opp_full m d ltac:(lia) H0), (Z_mod_nz_opp_full m d H0).
    set (q := m / d). set (r := m mod d).
    destruct (Z.compare_spec (2 * r) d);
      destruct (Z.compare_spec (2 * (d - r)) d); try lia.
    replace (- q - 1) with (- (Z.succ q)) by lia.
    rewrite Z.even_opp, Z.even_succ, <- Z.negb_even.
    destruct (Z.even q); simpl; lia.
Qed.

Lemma round_half_even_shift_div :
  forall m k, round_half_even_shift m k = round_half_even_div m (2 ^ k).
Proof. reflexivity. Qed.

Lemma py_round_ref_round : forall x, py_round x = ref_round x.
Proof.
  intros [s|s| |s m e]; try reflexivity.
  unfold py_round, ref_round.
  destruct e as [|e|k].
  - destruct s; simpl; f_equal; lia.
  - destruct s; simpl Z.leb; cbv iota; try reflexivity.
    f_equal. change (Zneg m) with (- Zpos m).
    replace (Z.leb 0 (Zpos e)) with true by reflexivity. ring.
  - simpl Z.leb. cbv iota.
    unfold Q_of_finite. rewrite nearest_even_Qmake, round_half_even_shift_div.
    replace (2 ^ (- Zneg k)) with (Zpos (2 ^ k)) by (simpl; rewrite Pos2Z.inj_pow; reflexivity).
    destruct s; f_equal.
    change (Zneg m) with (- Zpos m). rewrite round_half_even_div_opp by lia. reflexivity.
Qed.

Lemma dict_get_In {A : Type} (d : list (string * A)) (k : string) (v : A) :
  dict_get d k = Some v -> In (k, v) d.
Proof.
  induction d as [|[k' v'] d IH]; simpl; [discriminate|].
  destruct (String.eqb_spec k k') as [->|_].
  - intros [= <-]. left; reflexivity.
  - intros H. right. apply IH, H.
Qed.

Lemma lookup_bias_score_range :
  forall BIAS fn v, bias_scores_in_range BIAS ->
    -5 <= be_score (_lookup_bias BIAS fn v) <= 5.
Proof.
  intros BIAS fn v HB. unfold _lookup_bias.
  destruct (dict_get BIAS fn) as [d|] eqn:Hd; [|simpl; lia].
  apply dict_get_In in Hd.
  destruct d as [|[k0 e0] d']; [simpl; lia|].
  destruct (dict_get ((k0, e0) :: d') (_normalize_variant v)) as [e|] eqn:He.
  { eapply HB; [exact Hd | apply dict_get_In in He; exact He]. }
  destruct (dict_get ((k0, e0) :: d') "neutral") as [e|] eqn:He'.
  { eapply HB; [exact Hd | apply dict_get_In in He'; exact He']. }
  eapply HB; [exact Hd | left; reflexivity].
Qed.

(** The term of a zero-valued hit: the code multiplies [-abs(base)] by
    [0.0], the reference multiplies [0] by [0.0]. *)
Lemma zero_term_code :
  forall b, -5 <= b <= 5 ->
    exists bf a, float_of_int (Z.abs b * -1) = Ok bf /\
                 fmul bf (fdiv fzero f100) = S754_zero a.
Proof.
  intros b Hb.
  assert (Hc : Z.abs b = 0 \/ Z.abs b = 1 \/ Z.abs b = 2 \/ Z.abs b = 3 \/
               Z.abs b = 4 \/ Z.abs b = 5) by lia.
  destruct Hc as [H|[H|[H|[H|[H|H]]]]]; rewrite H;
    do 2 eexists; split; reflexivity.
Qed.

Lemma total_loop_ref_sum_same :
  forall BIAS hits x x', bias_scores_in_range BIAS ->
    same_up_to_zero_sign x x' ->
    same_result (total_loop BIAS hits x) (ref_sum BIAS hits x').
Proof.
  intros BIAS hits; induction hits as [|raw rest IH]; intros x x' HB Hx.
  - exact Hx.
  - simpl. destruct (_extract raw) as [[fn v]|e]; simpl; [|reflexivity].
    unfold _base_score.
    destruct (Z.eq_dec v 0) as [->|Hv].
    + change (Z.abs 0) with 0. change (Z.ltb 0 0) with false. cbv iota.
      change (float_of_int 0) with (Ok fzero). cbn [bind].
      rewrite Z.mul_0_r. change (float_of_int 0) with (Ok fzero). cbn [bind].
      destruct (zero_term_code _ (lookup_bias_score_range BIAS fn 0 HB))
        as (bf & a & Hbf & Hm).
      rewrite Hbf. cbn [bind]. rewrite Hm.
      apply IH; [exact HB|].
      apply fadd_same; [exact Hx|].
      right. exists a, false. split; [reflexivity|]. reflexivity.
    + replace (if Z.ltb 0 v then 1 else -1) with (Z.sgn v)
        by (destruct (Z.ltb_spec 0 v); destruct v; simpl; lia).
      destruct (float_of_int (Z.abs v)) as [av|e]; cbn [bind]; [|reflexivity].
      destruct (float_of_int _) as [bf|e]; cbn [bind]; [|reflexivity].
      apply IH; [exact HB|].
      apply fadd_same; [exact Hx | left; reflexivity].
Qed.

Lemma sample_bias_in_range : bias_scores_in_range sample_bias.
Proof.
  intros fn d v e H1 H2. simpl in H1.
  repeat destruct H1 as [H1|H1]; try contradiction; injection H1 as <- <-;
    simpl in H2; repeat destruct H2 as [H2|H2]; try contradiction;
    injection H2 as <- <-; simpl; lia.
Qed.

(** C2: [total_score_from_hits] equals the spec's reference definition:
    [base := |bias_score| * sign(value)], the float sum of
    [base * (|value| / 100)], rounded half to even on the exact value of the
    sum and clamped; for every hit list, for a bias table whose scores lie
    in [-5, 5]. (The code's [-|score| * 0.0] for a zero-valued hit is [-0.0]
    where the reference adds [0.0]; the sum then differs at most in the sign
    of a zero, which rounding does not see.) *)
Theorem total_score_from_hits_refines_spec :
  forall CLIP_MIN CLIP_MAX BIAS hits,
    bias_scores_in_range BIAS ->
    total_score_from_hits CLIP_MIN CLIP_MAX BIAS hits =
    ref_total_score CLIP_MIN CLIP_MAX BIAS hits.
Proof.
  intros CLIP_MIN CLIP_MAX BIAS hits HB.
  unfold total_score_from_hits, ref_total_score.
  pose proof (total_loop_ref_sum_same BIAS hits fzero fzero HB
                (or_introl eq_refl)) as Hs.
  destruct (total_loop BIAS hits fzero) as [y|e];
    destruct (ref_sum BIAS hits fzero) as [y'|e']; simpl in Hs;
    try contradiction; cbn [bind].
  - destruct Hs as [<- | (a & b & -> & ->)].
    + rewrite py_round_ref_round. reflexivity.
    + reflexivity.
  - subst. reflexivity.
Qed.

Lemma total_score_from_hits_refines_spec_witness :
  total_score_from_hits CLIP_MIN_default CLIP_MAX_default sample_bias
    [hit "CDLHAMMER" (PyInt 0); hit "CDLENGULFING" (PyInt 50);
     hit "CDLHAMMER" (PyInt 50)] = Ok 2 /\
  total_score_from_hits CLIP_MIN_default CLIP_MAX_default sample_bias
    [hit "CDLHAMMER" (PyInt 0); hit "CDLENGULFING" (PyInt 50);
     hit "CDLHAMMER" (PyInt 50)] =
  ref_total_score CLIP_MIN_default CLIP_MAX_default sample_bias
    [hit "CDLHAMMER" (PyInt 0); hit "CDLENGULFING" (PyInt 50);
     hit "CDLHAMMER" (PyInt 50)].
Proof.
  split.
  - vm_compute. reflexivity.
  - apply total_score_from_hits_refines_spec. exact sample_bias_in_range.
Defined.

(** ** C10: enrichment keeps the composite score *)

Lemma check_range_spec :
  forall f n lo, check_range f n lo = true ->
    forall k, lo <= k < lo + 2 ^ Z.of_nat n -> f k = true.
Proof.
  intros f n; induction n as [|n IH]; intros lo H k Hk; simpl in H.
  - replace k with lo by (simpl in Hk; lia). exact H.
  - apply andb_true_iff in H as [H1 H2].
    rewrite Nat2Z.inj_succ, Z.pow_succ_r in Hk by lia.
    destruct (Z.ltb_spec k (lo + 2 ^ Z.of_nat n)).
    + apply (IH lo H1). lia.
    + apply (IH _ H2). lia.
Qed.

Lemma int_truediv_small_ok :
  forall a, 0 <= a <= 1000 -> is_ok (int_truediv a 100) = true.
Proof.
  intros a Ha.
  assert (Hc : check_range (fun a => is_ok (int_truediv a 100)) 10 0 = true)
    by (vm_compute; reflexivity).
  apply (check_range_spec _ _ _ Hc). simpl. lia.
Qed.

Lemma float_of_int_bias_ok :
  forall b, -5 <= b <= 5 -> is_ok (float_of_int b) = true.
Proof.
  intros b Hb.
  assert (Hc : b = -5 \/ b = -4 \/ b = -3 \/ b = -2 \/ b = -1 \/ b = 0 \/
               b = 1 \/ b = 2 \/ b = 3 \/ b = 4 \/ b = 5) by lia.
  repeat destruct Hc as [->|Hc]; try reflexivity. subst. reflexivity.
Qed.

Lemma enrich_one_extract :
  forall BIAS at_ raw ph, enrich_one BIAS at_ raw = Ok ph ->
    _extract raw = _extract (HitPH ph).
Proof.
  intros BIAS at_ raw ph H. unfold enrich_one in H.
  apply bind_ok in H as [[fn value] [Hx H]].
  apply bind_ok in H as [st [_ H]].
  apply bind_ok in H as [w [_ H]].
  injection H as <-. rewrite Hx. reflexivity.
Qed.

Lemma enrich_hits_extract :
  forall BIAS at_ hits phs, enrich_hits BIAS at_ hits = Ok phs ->
    Forall2 (fun h ph => _extract h = _extract (HitPH ph)) hits phs.
Proof.
  intros BIAS at_ hits; induction hits as [|raw rest IH]; intros phs H; simpl in H.
  - injection H as <-. constructor.
  - apply bind_ok in H as [ph [H1 H]].
    apply bind_ok in H as [phs' [H2 H]].
    injection H as <-. constructor; [eapply enrich_one_extract; eauto | apply IH, H2].
Qed.

Lemma total_loop_extract_congr :
  forall BIAS hs hs', Forall2 (fun h h' => _extract h = _extract h') hs hs' ->
    forall x, total_loop BIAS hs x = total_loop BIAS hs' x.
Proof.
  intros BIAS hs hs' HF; induction HF as [|h h' hs hs' Hh HF IH]; intros x.
  - reflexivity.
  - simpl. rewrite Hh.
    destruct (_extract h') as [[fn v]|e]; simpl; [|reflexivity].
    destruct (float_of_int (Z.abs v)); simpl; [|reflexivity].
    destruct (float_of_int _); simpl; [|reflexivity].
    apply IH.
Qed.

Lemma enrich_hits_ok :
  forall BIAS at_ hits, bias_scores_in_range BIAS ->
    Forall well_formed_hit hits -> exists phs, enrich_hits BIAS at_ hits = Ok phs.
Proof.
  intros BIAS at_ hits HB HF; induction HF as [|h rest Hh HF IH].
  - exists []. reflexivity.
  - destruct IH as [phs Hphs]. destruct Hh as (fn & v & Hx & Hv).
    simpl. unfold enrich_one. rewrite Hx. cbn [bind].
    pose proof (lookup_bias_score_range BIAS fn v HB) as Hr.
    pose proof (float_of_int_bias_ok _ Hr) as Hf.
    destruct (float_of_int (be_score (_lookup_bias BIAS fn v))) as [bf|e];
      [|discriminate].
    destruct (Z.eqb v 0); cbn [bind].
    + rewrite Hphs. cbn [bind]. eexists; reflexivity.
    + pose proof (int_truediv_small_ok (Z.abs v) ltac:(lia)) as Hs.
      destruct (int_truediv (Z.abs v) 100) as [s|e]; [|discriminate].
      cbn [bind]. rewrite Hphs. cbn [bind]. eexists; reflexivity.
Qed.

(** C10: for raw hits of the data model (readable [fn] and [value],
    [|value| <= 1000]) and a bias table with scores in [-5, 5],
    [enrich_hits] returns, and scoring the enriched [PatternHit]s gives the
    same result as scoring the raw hits: [_extract] reads the same [fn]
    and [value] from both. *)
Theorem enrich_hits_preserves_total :
  forall CLIP_MIN CLIP_MAX BIAS at_ hits,
    bias_scores_in_range BIAS ->
    Forall well_formed_hit hits ->
    exists phs, enrich_hits BIAS at_ hits = Ok phs /\
      total_score_from_hits CLIP_MIN CLIP_MAX BIAS (map HitPH phs) =
      total_score_from_hits CLIP_MIN CLIP_MAX BIAS hits.
Proof.
  intros CLIP_MIN CLIP_MAX BIAS at_ hits HB HF.
  destruct (enrich_hits_ok BIAS at_ hits HB HF) as [phs Hphs].
  exists phs. split; [exact Hphs|].
  unfold total_score_from_hits.
  rewrite (total_loop_extract_congr BIAS hits (map HitPH phs)); [reflexivity|].
  pose proof (enrich_hits_extract BIAS at_ hits phs Hphs) as H2.
  clear Hphs HF. induction H2; simpl; constructor; assumption.
Qed.

Lemma enrich_hits_preserves_total_witness :
  exists phs,
    enrich_hits sample_bias None scenario_A = Ok phs /\
    total_score_from_hits CLIP_MIN_default CLIP_MAX_default sample_bias
      (map HitPH phs) =
    total_score_from_hits CLIP_MIN_default CLIP_MAX_default sample_bias scenario_A.
Proof.
  apply enrich_hits_preserves_total.
  - exact sample_bias_in_range.
  - repeat (apply Forall_cons;
      [unfold well_formed_hit; do 2 eexists; split; [reflexivity | simpl; lia] |]).
    apply Forall_nil.
Defined.

(** ** C8: the history window *)

Lemma nth_error_strongly_sorted {A : Type} (R : A -> A -> Prop) :
  forall (l : list A) i j a b, StronglySorted R l ->
    nth_error l i = Some a -> nth_error l j = Some b -> (i < j)%nat -> R a b.
Proof.
  induction l as [|x l IH]; intros i j a b Hs Hi Hj Hij;
    [destruct i; discriminate|].
  apply StronglySorted_inv in Hs as [Hs Hx].
  destruct i as [|i], j as [|j]; simpl in Hi, Hj; try lia.
  - injection Hi as <-. rewrite Forall_forall in Hx.
    apply Hx. eapply nth_error_In; eauto.
  - eapply IH; eauto. lia.
Qed.

Lemma day_hits_nonzero :
  forall sm idx, Forall (fun p => snd p <> 0) (day_hits sm idx).
Proof.
  induction sm as [|[fn series] sm IH]; intros idx; simpl; [constructor|].
  destruct (v <- py_index series idx ;; py_int v) as [value|e]; [|apply IH].
  destruct (Z.eqb_spec value 0); [apply IH|].
  constructor; [exact n | apply IH].
Qed.

Lemma py_index_in_range {A : Type} :
  forall (l : list A) i, 0 <= i < Z.of_nat (List.length l) ->
    exists a, py_index l i = Ok a /\ nth_error l (Z.to_nat i) = Some a.
Proof.
  intros l i Hi. unfold py_index.
  replace (Z.ltb i 0) with false by (symmetry; apply Z.ltb_ge; lia).
  replace (Z.leb 0 i && Z.ltb i (Z.of_nat (List.length l))) with true
    by (symmetry; apply andb_true_iff; split; [apply Z.leb_le | apply Z.ltb_lt]; lia).
  destruct (nth_error l (Z.to_nat i)) as [a|] eqn:E.
  - exists a. split; reflexivity.
  - apply nth_error_None in E. lia.
Qed.

Lemma history_loop_spec :
  forall (T : Type) sm (ds : list T) idxs,
    StronglySorted Z.lt idxs ->
    (forall i, In i idxs -> 0 <= i < Z.of_nat (List.length ds)) ->
    exists hist, history_loop T sm ds idxs = Ok hist /\
      (List.length hist <= List.length idxs)%nat /\
      Forall (fun e => snd e <> [] /\ Forall (fun p => snd p <> 0) (snd e)) hist /\
      (forall e, In e hist -> exists i, In i idxs /\ nth_error ds (Z.to_nat i) = Some (fst e)) /\
      (forall R, StronglySorted R ds -> StronglySorted R (map fst hist)).
Proof.
  intros T sm ds idxs; induction idxs as [|idx rest IH]; intros Hs Hr.
  - exists []. repeat split; simpl; auto.
    + intros e [].
    + intros R _. constructor.
  - apply StronglySorted_inv in Hs as [Hs Hlt].
    destruct (IH Hs (fun i Hi => Hr i (or_intror Hi)))
      as (tl & Htl & Hlen & Hok & Hin & Hsort).
    simpl. destruct (day_hits sm idx) as [|p ps] eqn:Hd.
    + exists tl. split; [exact Htl|]. split; [simpl; lia|].
      split; [exact Hok|]. split; [|exact Hsort].
      intros e He. destruct (Hin e He) as (i & Hi & Hn). exists i; split; [right|]; assumption.
    + destruct (py_index_in_range ds idx (Hr idx (or_introl eq_refl))) as (a & Ha & Hn).
      rewrite Ha. cbn [bind]. rewrite Htl. cbn [bind].
      exists ((a, p :: ps) :: tl). split; [reflexivity|]. split; [simpl; lia|].
      split; [|split].
      * constructor; [split; [discriminate | rewrite <- Hd; apply day_hits_nonzero] | exact Hok].
      * intros e [<- | He].
        -- exists idx. split; [left; reflexivity | exact Hn].
        -- destruct (Hin e He) as (i & Hi & Hn'). exists i; split; [right|]; assumption.
      * intros R HR. simpl. constructor; [apply Hsort, HR|].
        apply Forall_forall. intros x Hx. apply in_map_iff in Hx as (e & <- & He).
        destruct (Hin e He) as (j & Hj & Hnj).
        rewrite Forall_forall in Hlt. specialize (Hlt j Hj).
        pose proof (Hr idx (or_introl eq_refl)).
        eapply (nth_error_strongly_sorted R ds); eauto. lia.
Qed.

Lemma py_range_in : forall a b i, In i (py_range a b) -> a <= i < b.
Proof.
  intros a b i H. unfold py_range in H.
  apply in_map_iff in H as (k & <- & Hk). apply in_seq in Hk. lia.
Qed.

Lemma py_range_length : forall a b, List.length (py_range a b) = Z.to_nat (b - a).
Proof. intros a b. unfold py_range. rewrite length_map, length_seq. reflexivity. Qed.

Lemma py_range_sorted : forall a b, StronglySorted Z.lt (py_range a b).
Proof.
  intros a b. unfold py_range. generalize 0%nat as k.
  induction (Z.to_nat (b - a)) as [|n IH]; intros k; simpl; constructor; [apply IH|].
  apply Forall_forall. intros x Hx. apply in_map_iff in Hx as (j & <- & Hj).
  apply in_seq in Hj. lia.
Qed.

Lemma column_length_le :
  forall cols c n, Forall (fun c => List.length (snd c) = n) cols ->
    (List.length (column cols c) <= n)%nat.
Proof.
  intros cols c n H; induction H as [|[c' xs] cols Hc H IH]; simpl; [lia|].
  destruct (label_eqb c c'); [simpl in Hc; lia | exact IH].
Qed.

Lemma date_source_length :
  forall cols df, frame_wf df ->
    (List.length (date_source cols df) <= List.length (df_index df))%nat.
Proof.
  intros cols df Hwf. unfold date_source.
  destruct (date_col cols) as [c|]; [destruct (label_truthy c)|]; auto.
  apply column_length_le, Hwf.
Qed.

Lemma int_to_datetime_length :
  forall xs ys, int_to_datetime xs = Ok ys -> List.length ys = List.length xs.
Proof.
  induction xs as [|x xs IH]; intros ys H; unfold int_to_datetime in *; simpl in H.
  - injection H as <-. reflexivity.
  - destruct (py_int x); simpl in H; [|discriminate].
    destruct (fold_right _ _ xs) eqn:E; simpl in H; [|discriminate].
    injection H as <-. simpl. f_equal. apply IH. reflexivity.
Qed.

(** C8 (as stated: no error for every price series of at most
    [lookback_days] days) fails: a frame with a column labelled by an int
    makes [c.lower()] raise [AttributeError] in
    [_compute_pattern_series]. *)
Lemma C8_int_label_counterexample :
  detect_with_history ascii_lower ascii_upper Z int_to_datetime
    (Some sample_ta) frame_int_label 20 None = Err AttributeError.
Proof. vm_compute. reflexivity. Qed.

(** C8 (amended): for a rectangular frame whose labels lower and whose
    dates convert ([pd.to_datetime] giving one date per cell), and any
    [lookback], [detect_with_history] returns; its history has at most one
    entry per row and at most [max(0, lookback)] entries; each entry has at
    least one hit and only nonzero values; and the entries follow the order
    of the dates (ascending when the dates are). *)
Theorem detect_with_history_window :
  forall (py_lower py_upper : string -> string) (T : Type)
    (to_datetime : list pyval -> result (list T))
    (ta : option ta_module) (df : frame) (lookback : Z)
    (patterns : option (list string)) (ds : list T),
    frame_wf df ->
    (forall xs ys, to_datetime xs = Ok ys -> List.length ys = List.length xs) ->
    frame_dates py_lower T to_datetime df = Ok ds ->
    exists today hist,
      detect_with_history py_lower py_upper T to_datetime ta df lookback patterns
        = Ok (today, hist) /\
      (List.length hist <= List.length (df_index df))%nat /\
      Z.of_nat (List.length hist) <= Z.max 0 lookback /\
      Forall (fun e => snd e <> [] /\ Forall (fun p => snd p <> 0) (snd e)) hist /\
      (forall R, StronglySorted R ds -> StronglySorted R (map fst hist)).
Proof.
  intros py_lower py_upper T to_datetime ta df lookback patterns ds Hwf Hlen Hds.
  assert (Hnil : forall today : list (string * Z),
    Ok (today, @nil (T * list (string * Z))) = Ok (today, []) /\
    (List.length (@nil (T * list (string * Z))) <= List.length (df_index df))%nat /\
    Z.of_nat (List.length (@nil (T * list (string * Z)))) <= Z.max 0 lookback /\
    Forall (fun e : T * list (string * Z) => snd e <> [] /\
                      Forall (fun p => snd p <> 0) (snd e)) [] /\
    (forall R, StronglySorted R ds -> StronglySorted R (map fst (@nil (T * list (string * Z)))))).
  { intros today. repeat split; simpl; try lia; try constructor. }
  unfold detect_with_history.
  destruct ta as [t|]; [|exists [], []; apply Hnil].
  destruct (df_empty df); [exists [], []; apply Hnil|].
  unfold frame_dates in Hds. apply bind_ok in Hds as [cols [Hcols Hds]].
  unfold _compute_pattern_series. rewrite Hcols. cbn [bind].
  destruct (dict_get cols "open") as [oc|]; [|exists [], []; apply Hnil].
  destruct (dict_get cols "high") as [hc|]; [|exists [], []; apply Hnil].
  destruct (dict_get cols "low") as [lc|]; [|exists [], []; apply Hnil].
  destruct (dict_get cols "close") as [cc|]; [|exists [], []; apply Hnil].
  rewrite Hds. cbn [bind].
  destruct (build_series_map _ _ _ _ _ _ _) as [|x sm] eqn:Hsm;
    [exists [], []; apply Hnil|].
  set (last := Z.of_nat (List.length ds) - 1).
  set (start := Z.max 0 (last - lookback + 1)).
  destruct (history_loop_spec T (x :: sm) ds (py_range start (last + 1))
              (py_range_sorted _ _)
              (fun i Hi => ltac:(apply py_range_in in Hi; unfold start, last in *; lia)))
    as (hist & Hh & Hl & Hok & _ & Hsort).
  rewrite Hh. cbn [bind].
  exists (day_hits (x :: sm) last), hist.
  pose proof (Hlen _ _ Hds) as Hlds.
  pose proof (date_source_length cols df Hwf) as Hsrc.
  rewrite py_range_length in Hl.
  split; [reflexivity|]. split; [|split; [|split; [exact Hok | exact Hsort]]].
  - unfold start, last in Hl. lia.
  - apply Nat2Z.inj_le in Hl.
    destruct (Z.le_gt_cases 0 (last + 1 - start)).
    + rewrite Z2Nat.id in Hl by assumption. unfold start, last in *. lia.
    + replace (Z.to_nat (last + 1 - start)) with 0%nat in Hl
        by (destruct (last + 1 - start); simpl; lia). simpl in Hl. lia.
Qed.

Lemma detect_with_history_window_witness :
  exists today hist,
    detect_with_history ascii_lower ascii_upper Z int_to_datetime
      (Some sample_ta) sample_frame 20 None = Ok (today, hist) /\
    (List.length hist <= List.length (df_index sample_frame))%nat /\
    Z.of_nat (List.length hist) <= Z.max 0 20 /\
    Forall (fun e => snd e <> [] /\ Forall (fun p => snd p <> 0) (snd e)) hist /\
    (forall R, StronglySorted R [1; 2; 3] -> StronglySorted R (map fst hist)).
Proof.
  apply (detect_with_history_window ascii_lower ascii_upper Z int_to_datetime
           (Some sample_ta) sample_frame 20 None [1; 2; 3]).
  - repeat constructor.
  - exact int_to_datetime_length.
  - vm_compute. reflexivity.
Defined.

(** ** C9: degenerate inputs *)

Lemma dict_get_set_none {A : Type} :
  forall (d : list (string * A)) k v key,
    dict_get (dict_set d k v) key = None <->
    String.eqb key k = false /\ dict_get d key = None.
Proof.
  induction d as [|[k' v'] d IH]; intros k v key; simpl.
  - destruct (String.eqb key k); split; intuition congruence.
  - destruct (String.eqb_spec k k') as [<-|Hk]; simpl.
    + destruct (String.eqb key k); split; intuition congruence.
    + destruct (String.eqb_spec key k') as [->|Hk'].
      * replace (String.eqb k' k) with false
          by (symmetry; apply String.eqb_neq; congruence).
        split; intuition congruence.
      * apply IH.
Qed.

Lemma lower_cols_str :
  forall (py_lower : string -> string) cols acc,
    Forall (fun c => exists s, fst c = LStr s) cols ->
    exists r, lower_cols py_lower cols acc = Ok r /\
      forall key, dict_get r key = None <->
        dict_get acc key = None /\
        existsb (fun c => match fst c with
                          | LStr s => String.eqb (py_lower s) key
                          | LInt _ => false
                          end) cols = false.
Proof.
  intros py_lower cols; induction cols as [|[c xs] cols IH]; intros acc H.
  - exists acc. split; [reflexivity|]. intros key. simpl. tauto.
  - apply Forall_cons_iff in H as [[s Hs] H]. simpl in Hs. subst c.
    destruct (IH (dict_set acc (py_lower s) (LStr s)) H) as (r & Hr & Hk).
    exists r. split; [exact Hr|]. intros key.
    rewrite Hk, dict_get_set_none. simpl.
    rewrite (String.eqb_sym (py_lower s) key), orb_false_iff. tauto.
Qed.

(** C9 (as stated: missing OHLC columns give [([], [])]) fails: a frame
    whose columns are labelled by ints (here without any OHLC column)
    raises [AttributeError] on [c.lower()]. *)
Lemma C9_no_ohlc_counterexample :
  detect_with_history ascii_lower ascii_upper Z int_to_datetime
    (Some sample_ta) frame_no_ohlc 20 None = Err AttributeError.
Proof. vm_compute. reflexivity. Qed.

(** C9 (amended): [detect_with_history] returns [([], [])] without raising
    when TA-Lib is unavailable, when the frame is empty, and when the
    column labels are [str] and one of open/high/low/close (lowered) is
    missing. *)
Theorem detect_with_history_degenerate :
  forall (py_lower py_upper : string -> string) (T : Type)
    (to_datetime : list pyval -> result (list T)) (df : frame) (lookback : Z)
    (patterns : option (list string)),
    detect_with_history py_lower py_upper T to_datetime None df lookback patterns
      = Ok ([], []) /\
    forall ta : ta_module,
      (df_empty df = true ->
       detect_with_history py_lower py_upper T to_datetime (Some ta) df lookback patterns
         = Ok ([], [])) /\
      (str_labels df ->
       has_column py_lower df "open" = false \/ has_column py_lower df "high" = false \/
       has_column py_lower df "low" = false \/ has_column py_lower df "close" = false ->
       detect_with_history py_lower py_upper T to_datetime (Some ta) df lookback patterns
         = Ok ([], [])).
Proof.
  intros py_lower py_upper T to_datetime df lookback patterns.
  split; [reflexivity|]. intros ta. split.
  - intros He. unfold detect_with_history. rewrite He. reflexivity.
  - intros Hs Hmiss. unfold detect_with_history.
    destruct (df_empty df); [reflexivity|].
    unfold _compute_pattern_series.
    destruct (lower_cols_str py_lower (df_columns df) [] Hs) as (r & Hr & Hk).
    rewrite Hr. cbn [bind].
    assert (Hn : dict_get r "open" = None \/ dict_get r "high" = None \/
                 dict_get r "low" = None \/ dict_get r "close" = None).
    { unfold has_column in Hmiss.
      destruct Hmiss as [H|[H|[H|H]]].
      - left. apply Hk. split; [reflexivity | exact H].
      - right; left. apply Hk. split; [reflexivity | exact H].
      - right; right; left. apply Hk. split; [reflexivity | exact H].
      - right; right; right. apply Hk. split; [reflexivity | exact H]. }
    destruct Hn as [H|[H|[H|H]]]; rewrite H;
      destruct (dict_get r "open"), (dict_get r "high"),
               (dict_get r "low"), (dict_get r "close"); reflexivity.
Qed.

(** * Further properties of the code *)

(** ** Pattern detection: windows and selections *)

Lemma dict_get_set {A : Type} :
  forall (d : list (string * A)) k v key,
    dict_get (dict_set d k v) key =
    if String.eqb key k then Some v else dict_get d key.
Proof.
  induction d as [|[k' v'] d IH]; intros k v key; simpl.
  - destruct (String.eqb key k); reflexivity.
  - destruct (String.eqb_spec k k') as [<-|Hk]; simpl.
    + destruct (String.eqb key k); reflexivity.
    + destruct (String.eqb_spec key k') as [->|Hk'].
      * replace (String.eqb k' k) with false
          by (symmetry; apply String.eqb_neq; congruence). reflexivity.
      * apply IH.
Qed.

Lemma In_dict_set {A : Type} :
  forall (d : list (string * A)) k v key x,
    In (key, x) (dict_set d k v) -> (key = k /\ x = v) \/ In (key, x) d.
Proof.
  induction d as [|[k' v'] d IH]; intros k v key x H; simpl in H.
  - destruct H as [H|[]]. injection H as -> ->. left; auto.
  - destruct (String.eqb_spec k k') as [<-|Hk]; simpl in H.
    + destruct H as [H|H]; [injection H as -> ->; left; auto | right; right; exact H].
    + destruct H as [H|H]; [right; left; exact H|].
      destruct (IH _ _ _ _ H) as [E|E]; [left; exact E | right; right; exact E].
Qed.

Lemma build_series_map_get_gen :
  forall t o h l c fns sm0 fn,
    dict_get (build_series_map t o h l c fns sm0) fn =
    if existsb (String.eqb fn) fns then
      match call_out t fn o h l c with
      | Some out => Some out
      | None => dict_get sm0 fn
      end
    else dict_get sm0 fn.
Proof.
  intros t o h l c fns; induction fns as [|fn' rest IH]; intros sm0 fn; [reflexivity|].
  simpl. rewrite IH. unfold call_out.
  destruct (String.eqb_spec fn fn') as [<-|Hne]; simpl.
  - destruct (existsb (String.eqb fn) rest);
      destruct (dict_get t fn) as [f|]; try reflexivity;
      destruct (f o h l c); try reflexivity;
      rewrite dict_get_set, String.eqb_refl; reflexivity.
  - assert (Hs : dict_get
              match dict_get t fn' with
              | Some f => match f o h l c with
                          | CSeries out => dict_set sm0 fn' out
                          | _ => sm0 end
              | None => sm0 end fn = dict_get sm0 fn).
    { destruct (dict_get t fn') as [f|]; [|reflexivity].
      destruct (f o h l c); try reflexivity.
      rewrite dict_get_set. apply String.eqb_neq in Hne. rewrite Hne. reflexivity. }
    rewrite Hs. reflexivity.
Qed.

(** [_compute_pattern_series]'s detector loop: [series_map[fn]] is the
    output of every listed detector whose call returns a [pd.Series]; a
    detector that raises, returns something else, or is not listed has no
    entry. *)
Theorem build_series_map_get :
  forall t o h l c fns fn,
    dict_get (build_series_map t o h l c fns []) fn =
    if existsb (String.eqb fn) fns then call_out t fn o h l c else None.
Proof.
  intros. rewrite build_series_map_get_gen.
  destruct (existsb _ _); [destruct (call_out _ _ _ _ _ _)|]; reflexivity.
Qed.

Lemma history_loop_window :
  forall (T : Type) sm (ds : list T) idxs,
    (forall i, In i idxs -> 0 <= i < Z.of_nat (List.length ds)) ->
    history_loop T sm ds idxs = Ok (window_history sm ds idxs).
Proof.
  intros T sm ds idxs; induction idxs as [|i rest IH]; intros Hr; [reflexivity|].
  simpl. unfold window_history at 1. simpl. fold (window_history sm ds rest).
  rewrite IH by (intros j Hj; apply Hr; right; exact Hj).
  destruct (day_hits sm i) as [|p ps] eqn:Hd; [reflexivity|].
  destruct (py_index_in_range ds i (Hr i (or_introl eq_refl))) as (a & Ha & Hn).
  rewrite Ha, Hn. reflexivity.
Qed.

Lemma detect_range_ok :
  forall (T : Type) (ds : list T) lookback i,
    In i (py_range (Z.max 0 (Z.of_nat (List.length ds) - 1 - lookback + 1))
                   (Z.of_nat (List.length ds) - 1 + 1)) ->
    0 <= i < Z.of_nat (List.length ds).
Proof. intros T ds lookback i H. apply py_range_in in H. lia. Qed.

Lemma detect_with_history_series :
  forall (py_lower py_upper : string -> string) (T : Type)
    (to_datetime : list pyval -> result (list T)) t df lookback patterns sm
    (ds : list T),
    df_empty df = false ->
    _compute_pattern_series py_lower py_upper T to_datetime t df patterns = Ok (sm, ds) ->
    sm <> [] ->
    detect_with_history py_lower py_upper T to_datetime (Some t) df lookback patterns =
    Ok (day_hits sm (Z.of_nat (List.length ds) - 1),
        window_history sm ds
          (py_range (Z.max 0 (Z.of_nat (List.length ds) - lookback))
                    (Z.of_nat (List.length ds)))).
Proof.
  intros py_lower py_upper T to_datetime t df lookback patterns sm ds He Hc Hsm.
  unfold detect_with_history. rewrite He, Hc. cbn [bind].
  destruct sm as [|x sm]; [congruence|].
  rewrite history_loop_window by (apply detect_range_ok).
  cbn [bind]. do 4 f_equal; lia.
Qed.


(** [detect_all] gives the same hits as [detect_with_history] with any
    [lookback] (and fails exactly when it does): today's hits do not depend
    on the history window. *)
Theorem detect_all_any_lookback :
  forall (py_lower py_upper : string -> string) (T : Type)
    (to_datetime : list pyval -> result (list T)) ta df patterns lookback,
    detect_all py_lower py_upper T to_datetime ta df patterns =
    (p <- detect_with_history py_lower py_upper T to_datetime ta df lookback patterns ;;
     Ok (fst p)).
Proof.
  intros. unfold detect_all, detect_with_history.
  destruct ta as [t|]; [|reflexivity].
  destruct (df_empty df); [reflexivity|].
  destruct (_compute_pattern_series _ _ _ _ t df patterns) as [[sm ds]|e];
    cbn [bind]; [|reflexivity].
  destruct sm as [|x sm]; [reflexivity|].
  rewrite !history_loop_window by (apply detect_range_ok).
  reflexivity.
Qed.


Lemma compute_pattern_series_dates :
  forall (py_lower py_upper : string -> string) (T : Type)
    (to_datetime : list pyval -> result (list T)) t df patterns sm ds ds',
    frame_dates py_lower T to_datetime df = Ok ds ->
    _compute_pattern_series py_lower py_upper T to_datetime t df patterns = Ok (sm, ds') ->
    sm <> [] -> ds' = ds.
Proof.
  intros py_lower py_upper T to_datetime t df patterns sm ds ds' Hd Hc Hsm.
  unfold frame_dates in Hd. unfold _compute_pattern_series in Hc.
  destruct (lower_cols py_lower (df_columns df) []) as [cols|e]; cbn [bind] in *;
    [|discriminate].
  destruct (dict_get cols "open"), (dict_get cols "high"),
           (dict_get cols "low"), (dict_get cols "close");
    try (injection Hc as <- _; congruence).
  rewrite Hd in Hc. cbn [bind] in Hc. congruence.
Qed.

Lemma py_range_snoc :
  forall a b, a < b -> py_range a b = (py_range a (b - 1) ++ [b - 1])%list.
Proof.
  intros a b Hab. unfold py_range.
  replace (Z.to_nat (b - a)) with (S (Z.to_nat (b - 1 - a))) by lia.
  rewrite seq_S, map_app. cbn [map]. f_equal. f_equal.
  rewrite Nat.add_0_l, Z2Nat.id; lia.
Qed.

Lemma window_history_app :
  forall (T : Type) sm (ds : list T) xs ys,
    window_history sm ds (xs ++ ys)%list = (window_history sm ds xs ++ window_history sm ds ys)%list.
Proof. intros. unfold window_history. apply flat_map_app. Qed.

(** With [lookback >= 1], when today has hits, the last history entry is
    the last row: its date and exactly today's hits. *)
Theorem detect_with_history_last_entry :
  forall (py_lower py_upper : string -> string) (T : Type)
    (to_datetime : list pyval -> result (list T)) t df lookback patterns
    (ds : list T) today hist,
    1 <= lookback ->
    frame_dates py_lower T to_datetime df = Ok ds ->
    ds <> [] ->
    detect_with_history py_lower py_upper T to_datetime (Some t) df lookback patterns
      = Ok (today, hist) ->
    today <> [] ->
    exists pre d, hist = (pre ++ [(d, today)])%list /\
                  nth_error ds (List.length ds - 1) = Some d.
Proof.
  intros py_lower py_upper T to_datetime t df lookback patterns ds today hist
    Hlb Hd Hne Hdet Htoday.
  destruct (df_empty df) eqn:He.
  { unfold detect_with_history in Hdet. rewrite He in Hdet. congruence. }
  destruct (_compute_pattern_series py_lower py_upper T to_datetime t df patterns)
    as [[sm ds']|e] eqn:Hc.
  2: { unfold detect_with_history in Hdet. rewrite He, Hc in Hdet. discriminate. }
  destruct sm as [|x sm].
  { unfold detect_with_history in Hdet. rewrite He, Hc in Hdet. cbn in Hdet.
    congruence. }
  pose proof (compute_pattern_series_dates _ _ _ _ _ _ _ _ _ _ Hd Hc
                ltac:(discriminate)) as ->.
  rewrite (detect_with_history_series _ _ _ _ _ _ _ _ _ _ He Hc ltac:(discriminate))
    in Hdet.
  set (n := Z.of_nat (List.length ds)) in Hdet.
  remember (day_hits (x :: sm) (n - 1)) as td eqn:Htd.
  injection Hdet as Ht Hh. subst today hist.
  assert (Hn : 1 <= n) by (unfold n; destruct ds; [congruence | simpl; lia]).
  rewrite (py_range_snoc _ n) by lia.
  rewrite window_history_app.
  destruct (nth_error ds (Z.to_nat (n - 1))) as [d|] eqn:Hnth.
  2: { apply nth_error_None in Hnth. lia. }
  exists (window_history (x :: sm) ds (py_range (Z.max 0 (n - lookback)) (n - 1))), d.
  split.
  - f_equal. unfold window_history. cbn [flat_map].
    rewrite <- Htd. destruct td as [|p ps]; [congruence|].
    rewrite Hnth. reflexivity.
  - rewrite <- Hnth. f_equal. unfold n. lia.
Qed.

Lemma detect_with_history_last_entry_witness :
  exists pre d,
    [(2, [("CDLDOJI", 100)]); (3, [("CDLDOJI", -100)])] = (pre ++ [(d, [("CDLDOJI", -100)])])%list /\
    nth_error [1; 2; 3] (List.length [1; 2; 3] - 1) = Some d.
Proof.
  apply (detect_with_history_last_entry ascii_lower ascii_upper Z int_to_datetime
           sample_ta sample_frame 20 None [1; 2; 3] [("CDLDOJI", -100)]
           [(2, [("CDLDOJI", 100)]); (3, [("CDLDOJI", -100)])]).
  - lia.
  - vm_compute. reflexivity.
  - discriminate.
  - vm_compute. reflexivity.
  - discriminate.
Defined.

Lemma build_series_map_keys :
  forall t o h l c fns sm0 fn s,
    In (fn, s) (build_series_map t o h l c fns sm0) -> In (fn, s) sm0 \/ In fn fns.
Proof.
  induction fns as [|f fns IH]; intros sm0 fn s H; simpl in H; [left; exact H|].
  apply IH in H as [H|H]; [|right; right; exact H].
  destruct (dict_get t f) as [g|]; [|left; exact H].
  destruct (g o h l c); try (left; exact H).
  apply In_dict_set in H as [[-> _]|H]; [right; left; reflexivity | left; exact H].
Qed.

Lemma day_hits_in :
  forall sm idx fn v, In (fn, v) (day_hits sm idx) ->
    v <> 0 /\ exists s, In (fn, s) sm.
Proof.
  induction sm as [|[f s] sm IH]; intros idx fn v H; simpl in H; [contradiction|].
  destruct (v' <- py_index s idx ;; py_int v') as [value|e].
  - destruct (Z.eqb_spec value 0).
    + apply IH in H as [Hv [s' Hs']]. split; [exact Hv | exists s'; right; exact Hs'].
    + destruct H as [H|H].
      * injection H as -> ->. split; [exact n | exists s; left; reflexivity].
      * apply IH in H as [Hv [s' Hs']]. split; [exact Hv | exists s'; right; exact Hs'].
  - apply IH in H as [Hv [s' Hs']]. split; [exact Hv | exists s'; right; exact Hs'].
Qed.

Lemma history_loop_in :
  forall (T : Type) sm (ds : list T) idxs hist,
    history_loop T sm ds idxs = Ok hist ->
    forall d dh, In (d, dh) hist -> exists idx, dh = day_hits sm idx.
Proof.
  intros T sm ds. induction idxs as [|i idxs IH]; intros hist H d dh Hin; simpl in H.
  - injection H as <-. contradiction.
  - destruct (day_hits sm i) as [|p ps] eqn:Hdh; [exact (IH _ H d dh Hin)|].
    destruct (py_index ds i) as [d'|e]; cbn [bind] in H; [|discriminate].
    destruct (history_loop T sm ds idxs) as [tl|e] eqn:Htl; cbn [bind] in H; [|discriminate].
    injection H as <-. destruct Hin as [Hin|Hin].
    + injection Hin as <- <-. exists i. symmetry. exact Hdh.
    + exact (IH _ eq_refl d dh Hin).
Qed.

Lemma selected_functions_in :
  forall (py_upper : string -> string) t patterns fn,
    In fn (selected_functions py_upper t patterns) ->
    startswith_CDL fn = true /\ In fn (map fst t) /\
    (forall ps, patterns = Some ps -> exists p, In p ps /\ py_upper p = py_upper fn).
Proof.
  intros py_upper t patterns fn H. unfold selected_functions, available_pattern_functions in H.
  destruct patterns as [ps|].
  - apply filter_In in H as [H Hen]. apply filter_In in H as [Hfn Hcdl].
    split; [exact Hcdl|]. split; [exact Hfn|].
    intros ps' [= <-]. apply existsb_exists in Hen as [u [Hu Heq]].
    apply in_map_iff in Hu as [p [<- Hp]]. apply String.eqb_eq in Heq.
    exists p. split; [exact Hp | symmetry; exact Heq].
  - apply filter_In in H as [Hfn Hcdl]. split; [exact Hcdl|]. split; [exact Hfn|].
    discriminate.
Qed.

(** Every hit [detect_with_history] reports, today or in the history, is a
    nonzero output of a detector it selected: a [CDL] function of [talib]
    whose upper-cased name matches one of [patterns] when [patterns] is
    given. *)
Theorem detect_with_history_hits_selected :
  forall (py_lower py_upper : string -> string) (T : Type)
    (to_datetime : list pyval -> result (list T)) t df lookback patterns today hist,
    detect_with_history py_lower py_upper T to_datetime (Some t) df lookback patterns
      = Ok (today, hist) ->
    forall fn v, In (fn, v) (today ++ List.concat (map snd hist))%list ->
    v <> 0 /\ startswith_CDL fn = true /\ In fn (map fst t) /\
    (forall ps, patterns = Some ps -> exists p, In p ps /\ py_upper p = py_upper fn).
Proof.
  intros py_lower py_upper T to_datetime t df lookback patterns today hist Hdet fn v Hin.
  unfold detect_with_history in Hdet.
  destruct (df_empty df).
  { injection Hdet as <- <-. contradiction. }
  destruct (_compute_pattern_series py_lower py_upper T to_datetime t df patterns)
    as [[sm ds]|e] eqn:Hc; cbn [bind] in Hdet; [|discriminate].
  assert (Hkeys : forall f s, In (f, s) sm -> In f (selected_functions py_upper t patterns)).
  { intros f s Hfs. unfold _compute_pattern_series in Hc.
    destruct (lower_cols py_lower (df_columns df) []) as [cols|e]; cbn [bind] in Hc;
      [|discriminate].
    destruct (dict_get cols "open"), (dict_get cols "high"),
             (dict_get cols "low"), (dict_get cols "close");
      try (injection Hc as <- _; contradiction).
    destruct (to_datetime (date_source cols df)); cbn [bind] in Hc;
      [|discriminate].
    injection Hc as <- _.
    apply build_series_map_keys in Hfs as [[]|Hfs]. exact Hfs. }
  destruct sm as [|x sm'].
  { injection Hdet as <- <-. contradiction. }
  set (sm := x :: sm') in *.
  destruct (history_loop T sm ds _) as [hl|e] eqn:Hhl; cbn [bind] in Hdet; [|discriminate].
  injection Hdet as <- <-.
  assert (Hday : forall idx, In (fn, v) (day_hits sm idx) ->
            v <> 0 /\ startswith_CDL fn = true /\ In fn (map fst t) /\
            (forall ps, patterns = Some ps -> exists p, In p ps /\ py_upper p = py_upper fn)).
  { intros idx H. apply day_hits_in in H as [Hv [s Hs]].
    split; [exact Hv|]. apply selected_functions_in, (Hkeys fn s), Hs. }
  apply in_app_or in Hin as [Hin|Hin]; [exact (Hday _ Hin)|].
  apply in_concat in Hin as [dh [Hdh Hin]].
  apply in_map_iff in Hdh as [[d dh'] [Hsnd Hd]]. simpl in Hsnd. subst dh'.
  destruct (history_loop_in _ _ _ _ _ Hhl d dh Hd) as [idx ->].
  exact (Hday idx Hin).
Qed.

Lemma detect_with_history_hits_selected_witness :
  -100 <> 0 /\ startswith_CDL "CDLDOJI" = true /\ In "CDLDOJI" (map fst sample_ta) /\
  (forall ps, None = Some ps ->
     exists p, In p ps /\ ascii_upper p = ascii_upper "CDLDOJI").
Proof.
  apply (detect_with_history_hits_selected ascii_lower ascii_upper Z int_to_datetime
           sample_ta sample_frame 20 None [("CDLDOJI", -100)]
           [(2, [("CDLDOJI", 100)]); (3, [("CDLDOJI", -100)])]).
  - vm_compute. reflexivity.
  - simpl. left. reflexivity.
Defined.

(** When no detector is selected ([talib] has no [CDL] function, or
    [patterns] matches none of them), [detect_with_history] reports no hit
    and an empty history, as long as the dates of the frame convert. *)
Theorem detect_with_history_no_detector :
  forall (py_lower py_upper : string -> string) (T : Type)
    (to_datetime : list pyval -> result (list T)) t df lookback patterns (ds : list T),
    selected_functions py_upper t patterns = [] ->
    frame_dates py_lower T to_datetime df = Ok ds ->
    detect_with_history py_lower py_upper T to_datetime (Some t) df lookback patterns
      = Ok ([], []).
Proof.
  intros py_lower py_upper T to_datetime t df lookback patterns ds Hsel Hd.
  unfold detect_with_history. destruct (df_empty df); [reflexivity|].
  unfold frame_dates in Hd. unfold _compute_pattern_series.
  destruct (lower_cols py_lower (df_columns df) []) as [cols|e]; cbn [bind] in *;
    [|discriminate].
  destruct (dict_get cols "open"), (dict_get cols "high"),
           (dict_get cols "low"), (dict_get cols "close"); try reflexivity.
  rewrite Hsel, Hd. reflexivity.
Qed.

Lemma detect_with_history_no_detector_witness :
  detect_with_history ascii_lower ascii_upper Z int_to_datetime (Some sample_ta)
    sample_frame 20 (Some ["hammer"]) = Ok ([], []).
Proof.
  apply (detect_with_history_no_detector ascii_lower ascii_upper Z int_to_datetime
           sample_ta sample_frame 20 (Some ["hammer"]) [1; 2; 3]).
  - vm_compute. reflexivity.
  - vm_compute. reflexivity.
Defined.

(** ** The bias table *)

Lemma bias_map_get_set :
  forall (m : list (string * list (string * bias_dict))) fn v e fn' v',
    bias_map_get
      (dict_set m fn (dict_set (match dict_get m fn with Some d => d | None => [] end) v e))
      fn' v' =
    if String.eqb fn' fn && String.eqb v' v then Some e else bias_map_get m fn' v'.
Proof.
  intros m fn v e fn' v'. unfold bias_map_get. rewrite dict_get_set.
  destruct (String.eqb_spec fn' fn) as [->|Hfn]; simpl.
  - rewrite dict_get_set. destruct (String.eqb v' v); [reflexivity|].
    destruct (dict_get m fn); reflexivity.
  - reflexivity.
Qed.

Lemma bias_map_loop_get :
  forall py_strip py_lower rows m M,
    bias_map_loop py_strip py_lower rows m = Ok M ->
    forall fn v e,
      bias_map_get M fn v = Some e <->
      (exists pre r post, rows = (pre ++ r :: post)%list /\
         bias_row py_strip py_lower r = Ok (Some (fn, v, e)) /\
         Forall (fun r' => forall e', bias_row py_strip py_lower r' <> Ok (Some (fn, v, e'))) post) \/
      (bias_map_get m fn v = Some e /\
       Forall (fun r' => forall e', bias_row py_strip py_lower r' <> Ok (Some (fn, v, e'))) rows).
Proof.
  intros py_strip py_lower rows. induction rows as [|row rest IH]; intros m M H fn v e.
  - simpl in H. injection H as <-. split.
    + intros Hg. right. split; [exact Hg | constructor].
    + intros [(pre & r & post & Hl & _)|[Hg _]]; [|exact Hg].
      destruct pre; discriminate.
  - simpl in H. destruct (bias_row py_strip py_lower row) as [o|err] eqn:Hr;
      cbn [bind] in H; [|discriminate].
    destruct o as [[[fn' v'] e']|].
    + rewrite (IH _ _ H fn v e), bias_map_get_set. split.
      * intros [(pre & r & post & Hl & Hr' & Hp)|[Hg Hp]].
        -- left. exists (row :: pre), r, post. rewrite Hl. auto.
        -- destruct (String.eqb_spec fn fn') as [->|Hfn];
             destruct (String.eqb_spec v v') as [->|Hv]; simpl in Hg.
           ++ injection Hg as ->. left. exists [], row, rest. auto.
           ++ right. split; [exact Hg|]. constructor; [|exact Hp].
              intros e0 He0. rewrite Hr in He0. congruence.
           ++ right. split; [exact Hg|]. constructor; [|exact Hp].
              intros e0 He0. rewrite Hr in He0. congruence.
           ++ right. split; [exact Hg|]. constructor; [|exact Hp].
              intros e0 He0. rewrite Hr in He0. congruence.
      * intros [(pre & r & post & Hl & Hr' & Hp)|[Hg Hp]].
        -- destruct pre as [|p pre].
           ++ injection Hl as <- <-. rewrite Hr in Hr'. injection Hr' as -> -> ->.
              right. rewrite !String.eqb_refl. split; [reflexivity | exact Hp].
           ++ injection Hl as <- Hl. left. exists pre, r, post. auto.
        -- inversion Hp as [|? ? Hrow Hp']; subst.
           right. split; [|exact Hp'].
           destruct (String.eqb_spec fn fn') as [->|Hfn];
             destruct (String.eqb_spec v v') as [->|Hv]; simpl; try exact Hg.
           exfalso. exact (Hrow e' Hr).
    + rewrite (IH _ _ H fn v e). split.
      * intros [(pre & r & post & Hl & Hr' & Hp)|[Hg Hp]].
        -- left. exists (row :: pre), r, post. rewrite Hl. auto.
        -- right. split; [exact Hg|]. constructor; [|exact Hp].
           intros e0 He0. rewrite Hr in He0. discriminate.
      * intros [(pre & r & post & Hl & Hr' & Hp)|[Hg Hp]].
        -- destruct pre as [|p pre].
           ++ injection Hl as <- <-. rewrite Hr in Hr'. discriminate.
           ++ injection Hl as <- Hl. left. exists pre, r, post. auto.
        -- right. split; [exact Hg|]. inversion Hp; assumption.
Qed.

(** [_bias_map] keeps, for each function name and variant key, the dict
    built from the LAST record that has them: an entry is found under
    [(fn, variant)] exactly when some record gives that key with that
    entry and no later record gives the same key.  Records whose stripped
    function name is empty are skipped. *)
Theorem _bias_map_last_row_wins :
  forall py_strip py_lower rows M,
    _bias_map py_strip py_lower rows = Ok M ->
    forall fn v e,
      bias_map_get M fn v = Some e <->
      exists pre r post, rows = (pre ++ r :: post)%list /\
        bias_row py_strip py_lower r = Ok (Some (fn, v, e)) /\
        Forall (fun r' => forall e', bias_row py_strip py_lower r' <> Ok (Some (fn, v, e'))) post.
Proof.
  intros py_strip py_lower rows M H fn v e.
  rewrite (bias_map_loop_get _ _ _ _ _ H fn v e). split.
  - intros [Hx|[Hg _]]; [exact Hx | discriminate].
  - intros Hx. left. exact Hx.
Qed.

Lemma _bias_map_last_row_wins_witness :
  bias_map_get
    (match _bias_map ascii_strip ascii_lower sample_rows with Ok M => M | Err _ => [] end)
    "CDLHAMMER" "bullish" =
  Some {| bd_score := 2; bd_variant := PyStr "BULLISH "; bd_english := PyStr "Hammer";
          bd_japanese := PyNone; bd_typical := PyNone; bd_next_move := PyNone;
          bd_description := PyNone |} <->
  exists pre r post, sample_rows = (pre ++ r :: post)%list /\
    bias_row ascii_strip ascii_lower r =
      Ok (Some ("CDLHAMMER", "bullish",
        {| bd_score := 2; bd_variant := PyStr "BULLISH "; bd_english := PyStr "Hammer";
           bd_japanese := PyNone; bd_typical := PyNone; bd_next_move := PyNone;
           bd_description := PyNone |})) /\
    Forall (fun r' => forall e', bias_row ascii_strip ascii_lower r' <>
                                 Ok (Some ("CDLHAMMER", "bullish", e'))) post.
Proof.
  apply (_bias_map_last_row_wins ascii_strip ascii_lower sample_rows).
  vm_compute. reflexivity.
Defined.







(** ** Enrichment and scoring of hits *)



Lemma strength_range_check :
  check_range (fun k => if Z.leb k 100 then
                          match int_truediv k 100 with
                          | Ok s => float_gt0 s && SFleb s fone
                          | Err _ => false
                          end
                        else true) 7 1 = true.
Proof. vm_compute. reflexivity. Qed.

(** The [strength] [enrich_hits] gives a hit is [None] exactly when its
    [value] is [0]; for [0 < |value| <= 100] it is a float in [(0, 1]]. *)
Theorem enrich_hits_strength :
  forall BIAS at_ hits phs,
    enrich_hits BIAS at_ hits = Ok phs ->
    Forall (fun ph =>
      (ph_strength ph = None <-> ph_value ph = 0) /\
      (Z.abs (ph_value ph) <= 100 -> forall s, ph_strength ph = Some s ->
         float_gt0 s = true /\ SFleb s fone = true)) phs.
Proof.
  intros BIAS at_ hits; induction hits as [|raw rest IH]; intros phs H; simpl in H.
  - injection H as <-. constructor.
  - apply bind_ok in H as [ph [H1 H]].
    apply bind_ok in H as [phs' [H2 H]].
    injection H as <-. constructor; [|apply IH, H2].
    unfold enrich_one in H1.
    apply bind_ok in H1 as [[fn value] [_ H1]].
    destruct (Z.eqb_spec value 0) as [Hz|Hz].
    + cbn [bind] in H1. injection H1 as <-. simpl.
      split; [split; auto | intros _ s Hs; discriminate].
    + destruct (int_truediv (Z.abs value) 100) as [s|e] eqn:Hs; cbn [bind] in H1;
        [|discriminate].
      apply bind_ok in H1 as [w [_ H1]].
      injection H1 as <-. simpl.
      split; [split; [discriminate | intros; contradiction]|].
      intros Hle s' Hs'. injection Hs' as <-.
      pose proof (check_range_spec _ _ _ strength_range_check (Z.abs value)) as Hc.
      simpl in Hc. rewrite Hs in Hc.
      destruct (Z.leb_spec (Z.abs value) 100); [|lia].
      apply andb_true_iff, Hc. lia.
Qed.

Lemma enrich_hits_strength_witness :
  Forall (fun ph =>
      (ph_strength ph = None <-> ph_value ph = 0) /\
      (Z.abs (ph_value ph) <= 100 -> forall s, ph_strength ph = Some s ->
         float_gt0 s = true /\ SFleb s fone = true))
    (match enrich_hits sample_bias None
             [hit "CDLHAMMER" (PyInt 0); hit "CDLENGULFING" (PyInt (-100));
              hit "CDLHAMMER" (PyInt 1)] with
     | Ok phs => phs | Err _ => [] end).
Proof.
  apply (enrich_hits_strength sample_bias None
           [hit "CDLHAMMER" (PyInt 0); hit "CDLENGULFING" (PyInt (-100));
            hit "CDLHAMMER" (PyInt 1)]).
  vm_compute. reflexivity.
Defined.

Lemma total_loop_app :
  forall BIAS l1 l2 x,
    total_loop BIAS (l1 ++ l2)%list x = (y <- total_loop BIAS l1 x ;; total_loop BIAS l2 y).
Proof.
  intros BIAS l1; induction l1 as [|h l1 IH]; intros l2 x; simpl; [reflexivity|].
  destruct (_extract h) as [[fn v]|e]; cbn [bind]; [|reflexivity].
  destruct (float_of_int (Z.abs v)); cbn [bind]; [|reflexivity].
  destruct (float_of_int _); cbn [bind]; [apply IH | reflexivity].
Qed.

Lemma total_loop_same_start :
  forall BIAS hs x x', same_up_to_zero_sign x x' ->
    same_result (total_loop BIAS hs x) (total_loop BIAS hs x').
Proof.
  intros BIAS hs; induction hs as [|h hs IH]; intros x x' Hx; simpl; [exact Hx|].
  destruct (_extract h) as [[fn v]|e]; cbn [bind]; [|reflexivity].
  destruct (float_of_int (Z.abs v)); cbn [bind]; [|reflexivity].
  destruct (float_of_int _); cbn [bind]; [|reflexivity].
  apply IH, fadd_same; [exact Hx | left; reflexivity].
Qed.

Lemma fadd_zero_same :
  forall x a, same_up_to_zero_sign (fadd x (S754_zero a)) x.
Proof.
  intros [s|s| |s m e] a; unfold same_up_to_zero_sign, fadd, SFadd; simpl;
    try (left; reflexivity).
  right. destruct s, a; simpl; eauto.
Qed.

Lemma total_score_same :
  forall CLIP_MIN CLIP_MAX BIAS hs hs',
    same_result (total_loop BIAS hs fzero) (total_loop BIAS hs' fzero) ->
    total_score_from_hits CLIP_MIN CLIP_MAX BIAS hs =
    total_score_from_hits CLIP_MIN CLIP_MAX BIAS hs'.
Proof.
  intros CLIP_MIN CLIP_MAX BIAS hs hs' H. unfold total_score_from_hits.
  destruct (total_loop BIAS hs fzero) as [y|e];
    destruct (total_loop BIAS hs' fzero) as [y'|e']; simpl in H;
    try contradiction; cbn [bind]; [|congruence].
  destruct H as [<- | (a & b & -> & ->)]; reflexivity.
Qed.

(** A hit whose [value] reads as [0] does not change the composite score:
    [total_score_from_hits] gives the same result with or without it,
    wherever it stands in the list (for a bias table with scores in
    [-5, 5]; its term is [-|score| * 0.0], a zero). *)
Theorem total_score_from_hits_zero_hit :
  forall CLIP_MIN CLIP_MAX BIAS hs1 z hs2 fn,
    bias_scores_in_range BIAS ->
    _extract z = Ok (fn, 0) ->
    total_score_from_hits CLIP_MIN CLIP_MAX BIAS (hs1 ++ z :: hs2)%list =
    total_score_from_hits CLIP_MIN CLIP_MAX BIAS (hs1 ++ hs2)%list.
Proof.
  intros CLIP_MIN CLIP_MAX BIAS hs1 z hs2 fn HB Hz.
  apply total_score_same. rewrite !total_loop_app.
  destruct (total_loop BIAS hs1 fzero) as [y|e]; cbn [bind]; [|reflexivity].
  simpl. rewrite Hz. cbn [bind].
  change (Z.abs 0) with 0. change (Z.ltb 0 0) with false. cbv iota.
  change (float_of_int 0) with (Ok fzero). cbn [bind].
  unfold _base_score.
  destruct (zero_term_code _ (lookup_bias_score_range BIAS fn 0 HB))
    as (bf & a & Hbf & Hm).
  rewrite Hbf. cbn [bind]. rewrite Hm.
  apply total_loop_same_start, fadd_zero_same.
Qed.

Lemma total_score_from_hits_zero_hit_witness :
  total_score_from_hits CLIP_MIN_default CLIP_MAX_default sample_bias
    [hit "CDLENGULFING" (PyInt 50); hit "CDLHAMMER" (PyInt 0); hit "CDLHAMMER" (PyInt 50)] =
  total_score_from_hits CLIP_MIN_default CLIP_MAX_default sample_bias
    [hit "CDLENGULFING" (PyInt 50); hit "CDLHAMMER" (PyInt 50)].
Proof.
  apply (total_score_from_hits_zero_hit CLIP_MIN_default CLIP_MAX_default sample_bias
           [hit "CDLENGULFING" (PyInt 50)] (hit "CDLHAMMER" (PyInt 0))
           [hit "CDLHAMMER" (PyInt 50)] "CDLHAMMER").
  - exact sample_bias_in_range.
  - reflexivity.
Defined.

(** ** Price download with retries *)

(** With a negative [retry_attempts] the loop body never runs:
    [_download_with_retry] calls neither [yf.download] nor [time.sleep] and
    returns [None]. *)
Theorem _download_with_retry_negative :
  forall (DataFrame : Type) (download : Z -> download_outcome DataFrame) time_sleep
    retry_attempts retry_backoff,
    retry_attempts < 0 ->
    _download_with_retry DataFrame download time_sleep retry_attempts retry_backoff
      = (DLNone, []).
Proof.
  intros DataFrame download time_sleep R b HR. unfold _download_with_retry.
  destruct (Z.to_nat (R + 1)) eqn:Hf; [reflexivity|].
  simpl. destruct (Z.leb_spec 0 R); [lia | reflexivity].
Qed.

Lemma _download_with_retry_negative_witness :
  _download_with_retry nat flaky_download sleep_ok (-1) backoff_1_6 = (DLNone, []).
Proof.
  apply (_download_with_retry_negative nat flaky_download sleep_ok (-1) backoff_1_6).
  lia.
Defined.

Lemma retry_loop_success :
  forall (DataFrame : Type) (download : Z -> download_outcome DataFrame) time_sleep
    R b k df,
    download k = Downloaded df -> k <= R ->
    forall i a delay fuel last_exc,
      a + Z.of_nat i = k -> 0 <= a -> (S i <= fuel)%nat ->
      (forall j, a <= j < k -> exists m, download j = DownloadRaised m) ->
      (forall d, In d (backoff_delays delay b i) -> time_sleep d = Ok tt) ->
      retry_loop DataFrame download time_sleep R b fuel a delay last_exc =
      (DLFrame df, backoff_delays delay b i).
Proof.
  intros DataFrame download time_sleep R b k df Hk HkR i.
  induction i as [|i IH]; intros a delay fuel last_exc Ha Ha0 Hfuel Hfail Hsl.
  - destruct fuel as [|fuel]; [lia|]. simpl.
    replace a with k by lia. destruct (Z.leb_spec k R); [|lia].
    rewrite Hk. reflexivity.
  - destruct fuel as [|fuel]; [lia|]. simpl.
    destruct (Z.leb_spec a R); [|lia].
    destruct (Hfail a ltac:(lia)) as [m Hm]. rewrite Hm.
    destruct (Z.ltb_spec R (a + 1)); [lia|].
    rewrite (Hsl delay (or_introl eq_refl)).
    rewrite (IH (a + 1) (fmul delay b) fuel (Some m)); try lia.
    + reflexivity.
    + intros j Hj. apply Hfail. lia.
    + intros d Hd. apply Hsl. right. exact Hd.
Qed.

Lemma retry_loop_failure :
  forall (DataFrame : Type) (download : Z -> download_outcome DataFrame) time_sleep R b,
    forall i a delay fuel last_exc,
      a + Z.of_nat i = R -> 0 <= a -> (S i <= fuel)%nat ->
      (forall j, a <= j <= R -> exists m, download j = DownloadRaised m) ->
      (forall d, In d (backoff_delays delay b i) -> time_sleep d = Ok tt) ->
      exists m, download R = DownloadRaised m /\
        retry_loop DataFrame download time_sleep R b fuel a delay last_exc =
        (DLAppError "E-YF-404" (Some m), backoff_delays delay b i).
Proof.
  intros DataFrame download time_sleep R b i.
  induction i as [|i IH]; intros a delay fuel last_exc Ha Ha0 Hfuel Hfail Hsl.
  - destruct fuel as [|fuel]; [lia|]. simpl.
    replace a with R by lia. destruct (Z.leb_spec R R); [|lia].
    destruct (Hfail R ltac:(lia)) as [m Hm]. rewrite Hm.
    destruct (Z.ltb_spec R (R + 1)); [|lia].
    exists m. split; reflexivity.
  - destruct fuel as [|fuel]; [lia|]. simpl.
    destruct (Z.leb_spec a R); [|lia].
    destruct (Hfail a ltac:(lia)) as [m Hm]. rewrite Hm.
    destruct (Z.ltb_spec R (a + 1)); [lia|].
    rewrite (Hsl delay (or_introl eq_refl)).
    destruct (IH (a + 1) (fmul delay b) fuel (Some m)) as [m' [Hm' Hr]]; try lia.
    + intros j Hj. apply Hfail. lia.
    + intros d Hd. apply Hsl. right. exact Hd.
    + exists m'. split; [exact Hm'|]. rewrite Hr. reflexivity.
Qed.

(** When the first [k] calls of [yf.download] raise and call [k] returns a
    frame ([0 <= k <= retry_attempts]), [_download_with_retry] returns that
    frame after sleeping [k] times, for [1.0, 1.0*b, 1.0*b*b, ...] seconds
    ([b = retry_backoff]), provided [time.sleep] accepts these delays. *)
Theorem _download_with_retry_first_success :
  forall (DataFrame : Type) (download : Z -> download_outcome DataFrame) time_sleep
    retry_attempts retry_backoff k df,
    0 <= k <= retry_attempts ->
    (forall j, 0 <= j < k -> exists m, download j = DownloadRaised m) ->
    download k = Downloaded df ->
    (forall d, In d (backoff_delays fone retry_backoff (Z.to_nat k)) -> time_sleep d = Ok tt) ->
    _download_with_retry DataFrame download time_sleep retry_attempts retry_backoff =
    (DLFrame df, backoff_delays fone retry_backoff (Z.to_nat k)).
Proof.
  intros DataFrame download time_sleep R b k df Hk Hfail Hdf Hsl.
  unfold _download_with_retry.
  apply (retry_loop_success DataFrame download time_sleep R b k df Hdf); try lia.
  - exact Hfail.
  - exact Hsl.
Qed.

Lemma _download_with_retry_first_success_witness :
  _download_with_retry nat flaky_download sleep_ok 2 backoff_1_6 =
  (DLFrame 7%nat, backoff_delays fone backoff_1_6 2).
Proof.
  apply (_download_with_retry_first_success nat flaky_download sleep_ok 2 backoff_1_6 2 7%nat).
  - lia.
  - intros j Hj. exists "timed out". unfold flaky_download.
    destruct (Z.ltb_spec j 2); [reflexivity | lia].
  - reflexivity.
  - intros d _. reflexivity.
Defined.

(** When all [retry_attempts + 1] calls of [yf.download] raise,
    [_download_with_retry] sleeps [retry_attempts] times (no sleep after
    the last call) for [1.0, 1.0*b, ...] seconds and raises the [E-YF-404]
    app error whose detail is the text of the last exception, provided
    [time.sleep] accepts these delays. *)
Theorem _download_with_retry_all_fail :
  forall (DataFrame : Type) (download : Z -> download_outcome DataFrame) time_sleep
    retry_attempts retry_backoff,
    0 <= retry_attempts ->
    (forall j, 0 <= j <= retry_attempts -> exists m, download j = DownloadRaised m) ->
    (forall d, In d (backoff_delays fone retry_backoff (Z.to_nat retry_attempts)) ->
       time_sleep d = Ok tt) ->
    exists m, download retry_attempts = DownloadRaised m /\
      _download_with_retry DataFrame download time_sleep retry_attempts retry_backoff =
      (DLAppError "E-YF-404" (Some m),
       backoff_delays fone retry_backoff (Z.to_nat retry_attempts)).
Proof.
  intros DataFrame download time_sleep R b HR Hfail Hsl.
  unfold _download_with_retry.
  apply (retry_loop_failure DataFrame download time_sleep R b); try lia.
  - exact Hfail.
  - exact Hsl.
Qed.

Lemma _download_with_retry_all_fail_witness :
  exists m, flaky_download 1 = DownloadRaised m /\
    _download_with_retry nat flaky_download sleep_ok 1 backoff_1_6 =
    (DLAppError "E-YF-404" (Some m), backoff_delays fone backoff_1_6 1).
Proof.
  apply (_download_with_retry_all_fail nat flaky_download sleep_ok 1 backoff_1_6).
  - lia.
  - intros j Hj. exists "timed out". unfold flaky_download.
    destruct (Z.ltb_spec j 2); [reflexivity | lia].
  - intros d _. reflexivity.
Defined.

(** ** Price cleaning *)





Lemma nanmin_acc_none :
  forall xs, (forall x, In x xs -> is_nan x = true) -> nanmin_acc xs None = None.
Proof.
  induction xs as [|x xs IH]; intros H; simpl; [reflexivity|].
  rewrite (H x (or_introl eq_refl)). apply IH. intros y Hy. apply H. right. exact Hy.
Qed.


Lemma col_get_in :
  forall df c, col_get df c = [] \/ In (c, col_get df c) df.
Proof.
  intros df c. unfold col_get. destruct (dict_get df c) as [xs|] eqn:H; [|left; reflexivity].
  right. apply dict_get_In, H.
Qed.












(** When no price of the OHLC columns is positive (all zero, negative or
    NaN, or no such column), [_sanitize_ohlc] returns the frame
    unchanged. *)
Theorem _sanitize_ohlc_no_positive :
  forall df : price_frame,
    (forall c xs x, In c ohlc_names -> In (c, xs) df -> In x xs -> float_gt0 x = false) ->
    _sanitize_ohlc df = df.
Proof.
  intros df H. unfold _sanitize_ohlc. cbv zeta.
  assert (Hn : is_nan
    (nanmin (map (fun xs => nanmin (map (fun x => if float_gt0 x then x else fnan) xs))
               (map (col_get df) (filter (has_col df) ohlc_names)))) = true).
  { unfold nanmin at 1. rewrite nanmin_acc_none; [reflexivity|].
    intros a Ha. rewrite map_map in Ha. apply in_map_iff in Ha as [c [<- Hc]].
    apply filter_In in Hc as [Hc _].
    unfold nanmin. rewrite nanmin_acc_none; [reflexivity|].
    intros y Hy. apply in_map_iff in Hy as [z [<- Hz]].
    destruct (col_get_in df c) as [He|He]; [rewrite He in Hz; contradiction|].
    rewrite (H c _ z Hc He Hz). reflexivity. }
  rewrite Hn. simpl orb. destruct (filter (has_col df) ohlc_names); reflexivity.
Qed.

Lemma _sanitize_ohlc_no_positive_witness :
  _sanitize_ohlc [("Close", [fint 0; fnan]); ("Volume", [fint 9; fint 3])] =
  [("Close", [fint 0; fnan]); ("Volume", [fint 9; fint 3])].
Proof.
  apply _sanitize_ohlc_no_positive.
  intros c xs x Hc Hin Hx. simpl in Hin.
  destruct Hin as [Hin|[Hin|[]]]; injection Hin as <- <-.
  - simpl in Hx. destruct Hx as [<-|[<-|[]]]; reflexivity.
  - simpl in Hc. repeat destruct Hc as [Hc|Hc]; try discriminate. contradiction.
Defined.

(** ** Table rows of the main view *)

Lemma find_snoc {A : Type} (f : A -> bool) :
  forall l x, find f (l ++ [x])%list =
    match find f l with Some y => Some y | None => if f x then Some x else None end.
Proof.
  induction l as [|a l IH]; intros x; simpl; [reflexivity|].
  destruct (f a); [reflexivity | apply IH].
Qed.

Lemma summary_map_fold_get :
  forall ss m0 key,
    dict_get (fold_left (fun m s => dict_set m (as_symbol s) s) ss m0) key =
    match find (fun s => String.eqb (as_symbol s) key) (rev ss) with
    | Some s => Some s
    | None => dict_get m0 key
    end.
Proof.
  induction ss as [|s ss IH]; intros m0 key; simpl; [reflexivity|].
  rewrite IH, find_snoc, dict_get_set, String.eqb_sym.
  destruct (find _ (rev ss)); [reflexivity|].
  destruct (String.eqb (as_symbol s) key); reflexivity.
Qed.

Lemma summary_map_get :
  forall ss key,
    dict_get (summary_map ss) key = find (fun s => String.eqb (as_symbol s) key) (rev ss).
Proof.
  intros ss key. unfold summary_map. rewrite summary_map_fold_get.
  destruct (find _ _); reflexivity.
Qed.

(** [_to_rows_with_summary] gives one row per record, in the records'
    order; each row takes its symbol from the record, its score from the
    last summary with that symbol ([None] when there is none), and its
    category and label from [categorize_score] of that score. *)
Theorem _to_rows_with_summary_rows :
  forall records summaries,
    Forall2 (fun r row =>
      tr_symbol row = sr_symbol r /\
      tr_score row = option_map as_total_score
        (find (fun s => String.eqb (as_symbol s) (sr_symbol r)) (rev summaries)) /\
      (tr_score_category row, tr_score_label row) = categorize_score (tr_score row))
      records (_to_rows_with_summary records summaries).
Proof.
  intros records summaries. unfold _to_rows_with_summary.
  induction records as [|r records IH]; simpl; constructor; [|exact IH].
  unfold row_with_summary. rewrite summary_map_get.
  destruct (categorize_score _) as [cat lbl] eqn:Hc. simpl.
  split; [reflexivity|]. split; [reflexivity|]. symmetry. exact Hc.
Qed.

(** Filtering the rows of [_to_rows_with_summary] keeps exactly the
    records whose market matches a non-empty market filter (a record
    without market has market [""]) and, when a minimum score is set,
    whose last summary exists and has a total score at least the minimum:
    a record without a summary never passes a minimum-score filter. *)
Theorem emit_rows_symbols :
  forall market_filter min_score records summaries,
    map tr_symbol (emit_rows market_filter min_score (_to_rows_with_summary records summaries)) =
    map sr_symbol (filter (fun r =>
      (match market_filter with
       | Some f => String.eqb f "" || String.eqb (market_or_empty (sr_market r)) f
       | None => true
       end) &&
      (match min_score with
       | Some m =>
           match find (fun s => String.eqb (as_symbol s) (sr_symbol r)) (rev summaries) with
           | Some s => Z.leb m (as_total_score s)
           | None => false
           end
       | None => true
       end)) records).
Proof.
  intros mf ms records summaries. unfold emit_rows, _to_rows_with_summary.
  induction records as [|r records IH]; [reflexivity|].
  cbn [map filter].
  assert (Hp : _passes_filters mf ms (row_with_summary (summary_map summaries) r) =
    (match mf with
     | Some f => String.eqb f "" || String.eqb (market_or_empty (sr_market r)) f
     | None => true
     end) &&
    (match ms with
     | Some m =>
         match find (fun s => String.eqb (as_symbol s) (sr_symbol r)) (rev summaries) with
         | Some s => Z.leb m (as_total_score s)
         | None => false
         end
     | None => true
     end)).
  { unfold _passes_filters, row_with_summary. rewrite summary_map_get.
    destruct (categorize_score _) as [cat lbl]. cbn [tr_market tr_score].
    destruct mf as [f|].
    - destruct (String.eqb f "") eqn:Hf; simpl.
      + destruct ms as [m|]; [|reflexivity].
        destruct (find _ _) as [s|]; simpl; [|reflexivity].
        destruct (Z.ltb_spec (as_total_score s) m), (Z.leb_spec m (as_total_score s)); try reflexivity; lia.
      + rewrite (String.eqb_sym (market_or_empty _) f).
        destruct (String.eqb f (market_or_empty (sr_market r))); simpl; [|reflexivity].
        destruct ms as [m|]; [|reflexivity].
        destruct (find _ _) as [s|]; simpl; [|reflexivity].
        destruct (Z.ltb_spec (as_total_score s) m), (Z.leb_spec m (as_total_score s)); try reflexivity; lia.
    - simpl. destruct ms as [m|]; [|reflexivity].
      destruct (find _ _) as [s|]; simpl; [|reflexivity].
      destruct (Z.ltb_spec (as_total_score s) m), (Z.leb_spec m (as_total_score s)); try reflexivity; lia. }
  rewrite Hp. destruct (_ && _); simpl; [f_equal; [|exact IH]|exact IH].
  unfold row_with_summary. destruct (categorize_score _). reflexivity.
Qed.
